(** * DevGear AI chat extension: the chat turn of [ChatViewProvider]

    A shallow embedding of [src/devgear/extension.js]: the values that
    [response.json()] hands to the program, the JavaScript operations the
    chat handler applies to them, the handler itself ([handleChat], with
    [getAvailableModels] and [getWorkspaceContext]) as a program over an
    explicit machine state, and the properties of one chat turn.

    What the embedding takes from the host: every awaited call settles (it
    resolves or rejects; a call that never settles is outside the model);
    [postMessage], [console.log] and [console.error] do not throw, and the
    console is not part of the trace; the stored key, the key entered at
    the prompt and the question are strings; a response body is any JSON
    value.

    Beside the chat turn the file embeds the command [devgear.setApiKey]
    of [activate], and of the script of the webview the function
    [formatAIResponse], the function [send] and the handler of the
    messages of the extension, over the variables of the script, the value
    of the input, and what the script posts and appends to the list of
    messages; a string is a sequence of code units below 256. *)

From Stdlib Require Import List String Ascii Bool NArith Arith Lia DecimalString.
Import ListNotations.
Local Open Scope list_scope.
Local Open Scope string_scope.

Set Implicit Arguments.
Local Set Warnings "-register-all".

(** ** JavaScript values *)

Module JS.

(** The values the handler meets: what [JSON.parse] builds, plus
    [undefined] (the result of reading a missing property).  A number is
    kept as its canonical string form, the result of [String(n)]; this is
    all the handler observes of a number (its truthiness and its
    conversion to a string). *)
Inductive Value : Type :=
| VUndefined
| VNull
| VBool (b : bool)
| VNum (canonical : string)
| VStr (s : string)
| VArr (items : list Value)
| VObj (fields : list (string * Value)).

(** Thrown values.  Everything the handler throws or catches is an
    [Error] object, of which only [message] is read. *)
Record Error : Type := mkError { message : string }.

(** [TypeError]s, with the message text of V8. *)
Definition TypeError (msg : string) : Error := mkError msg.

Definition Result (A : Type) : Type := (Error + A)%type.

(** ToBoolean *)
Definition truthy (v : Value) : bool :=
  match v with
  | VUndefined | VNull => false
  | VBool b => b
  | VNum c => negb (c =? "0")
  | VStr s => negb (s =? "")
  | VArr _ | VObj _ => true
  end.

(** [a || b] on already evaluated operands *)
Definition or_else (a b : Value) : Value := if truthy a then a else b.

Fixpoint lookup (k : string) (fields : list (string * Value)) : Value :=
  match fields with
  | [] => VUndefined
  | (k', v) :: rest => if k =? k' then v else lookup k rest
  end.

(** [v[name]] for a value [v] that is neither [null] nor [undefined] and a
    name that no prototype defines ([error], [message], [candidates],
    [content], [parts], [text], [models], [name]): own properties only. *)
Definition own (v : Value) (name : string) : Value :=
  match v with
  | VObj fields => lookup name fields
  | _ => VUndefined
  end.

(** [v.name]: reading a property of [null] or [undefined] throws. *)
Definition get (v : Value) (name : string) : Result Value :=
  match v with
  | VUndefined =>
      inl (TypeError ("Cannot read properties of undefined (reading '" ++ name ++ "')"))
  | VNull =>
      inl (TypeError ("Cannot read properties of null (reading '" ++ name ++ "')"))
  | _ => inr (own v name)
  end.

(** [v?.name] *)
Definition opt_get (v : Value) (name : string) : Value :=
  match v with
  | VUndefined | VNull => VUndefined
  | _ => own v name
  end.

(** [v?.[0]]: the first element of an array, the first character of a
    string, the property ["0"] of an object. *)
Definition opt_first (v : Value) : Value :=
  match v with
  | VArr (x :: _) => x
  | VStr (String c _) => VStr (String c "")
  | VObj fields => lookup "0" fields
  | _ => VUndefined
  end.

Definition has_key (k : string) (fields : list (string * Value)) : bool :=
  existsb (fun kv => k =? fst kv) fields.

(** ToString.  An array is joined with commas, [null] and [undefined]
    elements giving the empty string; an object has no primitive form
    when it carries an own [toString] property (which parsed JSON cannot
    make callable), and is ["[object Object]"] otherwise. *)
Fixpoint ToString (v : Value) : Result string :=
  match v with
  | VUndefined => inr "undefined"
  | VNull => inr "null"
  | VBool true => inr "true"
  | VBool false => inr "false"
  | VNum c => inr c
  | VStr s => inr s
  | VArr items =>
      let element (x : Value) : Result string :=
        match x with
        | VUndefined | VNull => inr ""
        | _ => ToString x
        end in
      (fix join (xs : list Value) : Result string :=
         match xs with
         | [] => inr ""
         | [x] => element x
         | x :: rest =>
             match element x with
             | inl e => inl e
             | inr s =>
                 match join rest with
                 | inl e => inl e
                 | inr t => inr (s ++ "," ++ t)
                 end
             end
         end) items
  | VObj fields =>
      if has_key "toString" fields
      then inl (TypeError "Cannot convert object to primitive value")
      else inr "[object Object]"
  end.

(** [String.prototype.includes] *)
Fixpoint includes (s sub : string) : bool :=
  String.prefix sub s ||
  match s with
  | EmptyString => false
  | String _ rest => includes rest sub
  end.

(** [Array.prototype.includes] with a string argument: only an equal
    string element matches. *)
Definition array_includes (items : list Value) (x : string) : bool :=
  existsb (fun v => match v with VStr s => s =? x | _ => false end) items.

(** [new Error(m)]: the message is [ToString m], or empty when [m] is
    [undefined]; the conversion itself may throw. *)
Definition new_Error (m : Value) : Result Error :=
  match m with
  | VUndefined => inr (mkError "")
  | _ => match ToString m with
         | inl e => inl e
         | inr s => inr (mkError s)
         end
  end.

End JS.

(** ** The host: webview, configuration, workspace and network *)

Module Host.
Import JS.

(** Messages posted to the webview with [this._view.webview.postMessage]. *)
Inductive Message : Type :=
| Loading (loading : bool)
| Response (message : Value)
| ErrorMessage (message : string)
| ClearChat.

(** Messages received from the webview, by their [type] field; any other
    type falls through the [switch]. *)
Inductive Incoming : Type :=
| Chat (text : string)
| Clear
| Other.

Inductive Method : Type := GET | POST.

(** A call of [fetch].  [body] is the value given to [JSON.stringify]
    (absent for GET). *)
Record Request : Type := mkRequest {
  method : Method;
  url : string;
  body : option Value
}.

(** What the program reads of a node-fetch response: its status, and the
    outcomes of [text()] and [json()]. *)
Record FetchResponse : Type := mkResponse {
  status : N;
  text : Result string;
  json : Result Value
}.

(** [response.ok] of node-fetch: a status from 200 to 299 *)
Definition ok (r : FetchResponse) : bool :=
  ((200 <=? status r) && (status r <? 300))%N.

(** A file found in the workspace, and the outcome of opening it. *)
Record File : Type := mkFile {
  relativePath : string;
  openTextDocument : Result string
}.

Definition WebviewView : Type := nat.

(** The observable actions of a turn, in order. *)
Inductive Event : Type :=
| PostMessage (view : WebviewView) (m : Message)
| ShowInputBox
| ConfigUpdate (apiKey : string)
| Fetch (r : Request).

(** The environment of one turn: how each awaited call of the host API
    settles.  [fetch n r] is the outcome of the call made after [n]
    earlier calls of the turn with request [r]; [inl e] is a rejection
    with [e]. *)
Record World : Type := mkWorld {
  showInputBox : Result (option string);
  configUpdate : string -> option Error;
  findFiles : Result (list File);
  fetch : nat -> Request -> Result FetchResponse
}.

(** The state a turn runs on: the events so far, the stored
    [devgear.geminiApiKey] setting, and the local variable [model] of
    [handleChat]. *)
Record Machine : Type := mkMachine {
  trace : list Event;
  geminiApiKey : option string;
  model : Value
}.

Definition requests (t : list Event) : list Request :=
  flat_map (fun e => match e with Fetch r => [r] | _ => [] end) t.

Definition posted (t : list Event) : list Message :=
  flat_map (fun e => match e with PostMessage _ m => [m] | _ => [] end) t.

End Host.

(** ** Statements, completions and [try] blocks *)

Module Run.
Import JS Host.

(** How a block completes: normally with a value, by [return], or by
    [throw]. *)
Inductive Completion (A : Type) : Type :=
| Normal (a : A)
| Return
| Throw (e : Error).
Arguments Return {A}.
Arguments Throw {A} e.

Definition M (A : Type) : Type := Machine -> Completion A * Machine.

Definition ret {A} (a : A) : M A := fun s => (Normal a, s).

Definition bind {A B} (c : M A) (k : A -> M B) : M B :=
  fun s =>
    match c s with
    | (Normal a, s') => k a s'
    | (Return, s') => (Return, s')
    | (Throw e, s') => (Throw e, s')
    end.

Definition throw {A} (e : Error) : M A := fun s => (Throw e, s).

Definition return_ {A} : M A := fun s => (Return, s).

(** An expression that may throw *)
Definition eval {A} (r : Result A) : M A :=
  match r with
  | inl e => throw e
  | inr a => ret a
  end.

Definition emit (e : Event) : M unit :=
  fun s => (Normal tt, mkMachine (trace s ++ [e])%list (geminiApiKey s) (model s)).

(** [try { body } catch (error) { handler error }] *)
Definition try_catch {A} (body : M A) (handler : Error -> M A) : M A :=
  fun s =>
    match body s with
    | (Throw e, s') => handler e s'
    | other => other
    end.

(** [try { body } finally { final }]: [final] always runs; the block
    completes as [body] did unless [final] completes abruptly. *)
Definition try_finally (body final : M unit) : M unit :=
  fun s =>
    match body s with
    | (c, s') =>
        match final s' with
        | (Normal _, s'') => (c, s'')
        | abrupt => abrupt
        end
    end.

End Run.

Declare Scope js_scope.
Delimit Scope js_scope with js.
Notation "x <- c ;; k" := (Run.bind c (fun x => k))
  (at level 61, c at next level, right associativity) : js_scope.
Notation "c ;; k" := (Run.bind c (fun _ => k))
  (at level 61, right associativity) : js_scope.

(** ** The extension *)

Module Extension.
Import JS Host Run.
Local Open Scope js_scope.

(** The line feed of the template literals *)
Definition LF : string := String (ascii_of_nat 10) "".

(** A status number inside a template literal *)
Definition decimal (n : N) : string := NilZero.string_of_uint (N.to_uint n).

(** An API key is a string or [undefined]: its truthiness, and its text
    inside a template literal. *)
Definition given (apiKey : option string) : bool :=
  match apiKey with
  | Some k => negb (k =? "")
  | None => false
  end.

Definition key_text (apiKey : option string) : string :=
  match apiKey with
  | Some k => k
  | None => "undefined"
  end.

Definition endpoint : string :=
  "https://generativelanguage.googleapis.com/v1beta/models".

Definition defaultModel : string := "gemini-1.5-flash".

(** The family preferred by the fallback (line 151) *)
Definition preferredFamily : string := "gemini-1.5".

Definition noModelsAvailable : Error :=
  mkError "No available models found. Please check your API key or region.".

(** The double quote inside the message of line 124 *)
Definition DQ : string := String (ascii_of_nat 34) "".

Definition apiKeyRequired : string :=
  "API key is required. Set it in Settings or use the command " ++ DQ ++
  "DevGear AI: Set Gemini API Key" ++ DQ ++ ".".

Definition placeholder : Value := VStr "No response received".

Record ChatViewProvider : Type := mkProvider {
  extensionUri : string;
  _view : option WebviewView
}.

(** [m.includes(token)] for an element [m] of the listed models *)
Definition m_includes (m : Value) (token : string) : Result bool :=
  match m with
  | VStr s => inr (includes s token)
  | VArr items => inr (array_includes items token)
  | VUndefined =>
      inl (TypeError "Cannot read properties of undefined (reading 'includes')")
  | VNull =>
      inl (TypeError "Cannot read properties of null (reading 'includes')")
  | _ => inl (TypeError "m.includes is not a function")
  end.

(** [models.find(m => m.includes(token))] *)
Fixpoint find_family (token : string) (models : list Value) : Result Value :=
  match models with
  | [] => inr VUndefined
  | m :: rest =>
      match m_includes m token with
      | inl e => inl e
      | inr true => inr m
      | inr false => find_family token rest
      end
  end.

(** The choice of the fallback model, lines 150-151 and 172-174:
    [models.find(m => m.includes(token)) || models[0]] when
    [models.length > 0], the error of line 173 otherwise. *)
Definition chooseFallbackWith (token : string) (models : list Value) : Result Value :=
  match models with
  | [] => inl noModelsAvailable
  | first :: _ =>
      match find_family token models with
      | inl e => inl e
      | inr found => inr (or_else found first)
      end
  end.

Definition chooseFallback : list Value -> Result Value :=
  chooseFallbackWith preferredFamily.

(** [data.models.map(model => model.name)] *)
Fixpoint names (items : list Value) : Result (list Value) :=
  match items with
  | [] => inr []
  | item :: rest =>
      match get item "name" with
      | inl e => inl e
      | inr n =>
          match names rest with
          | inl e => inl e
          | inr ns => inr (n :: ns)
          end
      end
  end.

Definition model_names (data : Value) : Result (list Value) :=
  match get data "models" with
  | inl e => inl e
  | inr (VArr items) => names items
  | inr VUndefined =>
      inl (TypeError "Cannot read properties of undefined (reading 'map')")
  | inr VNull =>
      inl (TypeError "Cannot read properties of null (reading 'map')")
  | inr _ => inl (TypeError "data.models.map is not a function")
  end.

(** [data.candidates?.[0]?.content?.parts?.[0]?.text] *)
Definition candidateText (data : Value) : Result Value :=
  match get data "candidates" with
  | inl e => inl e
  | inr candidates =>
      inr (opt_get (opt_first (opt_get (opt_get (opt_first candidates)
                                                "content") "parts")) "text")
  end.

(** Lines 166 and 185: [... || 'No response received'] *)
Definition aiResponse (data : Value) : Result Value :=
  match candidateText data with
  | inl e => inl e
  | inr t => inr (or_else t placeholder)
  end.

(** The prompt of lines 134-136 *)
Definition fullPrompt (codeContext userMessage : string) : string :=
  "You are DevGear AI. The user is asking about the codebase." ++ LF ++
  "Here is relevant code context:" ++ LF ++ codeContext ++ LF ++ LF ++
  "User question: " ++ userMessage.

Definition generateContent (modelText : string) (apiKey : option string)
    (prompt : string) : Request :=
  mkRequest POST
    (endpoint ++ "/" ++ modelText ++ ":generateContent?key=" ++ key_text apiKey)
    (Some (VObj [("contents",
                  VArr [VObj [("parts", VArr [VObj [("text", VStr prompt)]])]])])).

Definition listModels (apiKey : option string) : Request :=
  mkRequest GET (endpoint ++ "?key=" ++ key_text apiKey) None.

(** Lines 92-98, the body of the loop over the files found *)
Definition appendFile (context : string) (file : File) : string :=
  match openTextDocument file with
  | inr text =>
      context ++ LF ++ "--- FILE: " ++ relativePath file ++ " ---" ++ LF ++ text ++ LF
  | inl _ => context
  end.

Section Handler.

Variable w : World.

Definition postMessage (view : WebviewView) (m : Message) : M unit :=
  emit (PostMessage view m).

(** [await fetch(...)]: the call is recorded, and settles as the world
    says for a call made after the earlier ones of the turn. *)
Definition do_fetch (r : Request) : M FetchResponse :=
  fun s => (emit (Fetch r);; eval (fetch w (List.length (requests (trace s))) r)) s.

(** [config.get('geminiApiKey')] *)
Definition config_get : M (option string) :=
  fun s => (Normal (geminiApiKey s), s).

(** [await config.update('geminiApiKey', apiKey, Global)] *)
Definition config_update (apiKey : option string) : M unit :=
  emit (ConfigUpdate (key_text apiKey));;
  match configUpdate w (key_text apiKey) with
  | Some e => throw e
  | None => fun s => (Normal tt, mkMachine (trace s) apiKey (model s))
  end.

Definition show_input_box : M (option string) :=
  emit ShowInputBox;; eval (showInputBox w).

Definition set_model (m : Value) : M unit :=
  fun s => (Normal tt, mkMachine (trace s) (geminiApiKey s) m).

(** The text of [${model}] inside a template literal *)
Definition model_text : M string :=
  fun s => eval (ToString (model s)) s.

(** Lines 71-86.  Whatever fails inside is logged and gives the empty
    array. *)
Definition getAvailableModels (apiKey : option string) : M (list Value) :=
  try_catch
    (response <- do_fetch (listModels apiKey);;
     (if negb (ok response)
      then throw (mkError ("Failed to fetch models: " ++ decimal (status response)))
      else ret tt);;
     data <- eval (json response);;
     eval (model_names data))
    (fun _ => ret []).

(** Lines 88-101.  A file that cannot be opened is logged and skipped. *)
Definition getWorkspaceContext : M string :=
  files <- eval (findFiles w);;
  ret (fold_left appendFile files "").

(** Lines 112-130: the stored key, or the one entered at the prompt
    and then stored; without a key the turn posts an error and
    returns. *)
Definition obtainApiKey (view : WebviewView) : M (option string) :=
  apiKey <- config_get;;
  if negb (given apiKey) then
    apiKey <- show_input_box;;
    if negb (given apiKey) then
      postMessage view (ErrorMessage apiKeyRequired);;
      return_
    else
      config_update apiKey;;
      ret apiKey
  else ret apiKey.

(** Lines 160 and 176:
    [throw new Error(`API Error: ${response.status} - ${await response.text()}`)] *)
Definition apiError {A} (response : FetchResponse) : M A :=
  body <- eval (text response);;
  throw (mkError ("API Error: " ++ decimal (status response) ++ " - " ++ body)).

(** Lines 162-170 and 179-190, the same code for the retry and for the
    first response: parse the body, throw its [error], post the
    answer. *)
Definition respond (view : WebviewView) (response : FetchResponse) : M unit :=
  data <- eval (json response);;
  error <- eval (get data "error");;
  (if truthy error then
     m <- eval (get error "message");;
     e <- eval (new_Error m);;
     throw e
   else ret tt);;
  answer <- eval (aiResponse data);;
  postMessage view (Response answer).

(** Lines 139-190, the body of the inner [try]. *)
Definition requestAnswer (view : WebviewView) (apiKey : option string)
    (prompt : string) : M unit :=
  id <- model_text;;
  response <- do_fetch (generateContent id apiKey prompt);;
  (if negb (ok response) then
     (if (status response =? 404)%N then
        models <- getAvailableModels apiKey;;
        chosen <- eval (chooseFallback models);;
        set_model chosen;;
        id <- model_text;;
        retryResponse <- do_fetch (generateContent id apiKey prompt);;
        (if negb (ok retryResponse) then apiError retryResponse else ret tt);;
        respond view retryResponse;;
        return_
      else ret tt);;
     apiError response
   else ret tt);;
  respond view response.

(** Lines 191-193: the inner [catch] *)
Definition wrapFailure (error : Error) : M unit :=
  id <- model_text;;
  throw (mkError ("Failed with model " ++ id ++ ": " ++ message error)).

(** Lines 110-136: everything before the inner [try], giving the key
    and the prompt of the request. *)
Definition prepare (view : WebviewView) (userMessage : string)
  : M (option string * string) :=
  postMessage view (Loading true);;
  apiKey <- obtainApiKey view;;
  set_model (VStr defaultModel);;
  codeContext <- getWorkspaceContext;;
  ret (apiKey, fullPrompt codeContext userMessage).

(** Lines 103-203. *)
Definition handleChat (this : ChatViewProvider) (userMessage : string) : M unit :=
  match _view this with
  | None => return_
  | Some view =>
    try_finally
      (try_catch
         (ready <- prepare view userMessage;;
          try_catch (requestAnswer view (fst ready) (snd ready)) wrapFailure)
         (fun error =>
            postMessage view (ErrorMessage ("Error: " ++ message error))))
      (postMessage view (Loading false))
  end.

(** The handler registered by [resolveWebviewView], lines 52-63. *)
Definition onDidReceiveMessage (this : ChatViewProvider) (data : Incoming) : M unit :=
  match data with
  | Chat text => handleChat this text
  | Clear =>
      match _view this with
      | Some view => postMessage view ClearChat
      | None =>
          throw (TypeError "Cannot read properties of null (reading 'webview')")
      end
  | Other => ret tt
  end.

End Handler.

(** [resolveWebviewView] stores the view (line 45) before anything else;
    the handler above is registered by the same call. *)
Definition resolveWebviewView (this : ChatViewProvider) (webviewView : WebviewView)
  : ChatViewProvider :=
  mkProvider (extensionUri this) (Some webviewView).

(** The machine at the start of a turn, with the stored setting. *)
Definition start (stored : option string) : Machine :=
  mkMachine [] stored VUndefined.

(** A chat turn: the webview of a resolved view sends [chat{text}]. *)
Definition chatTurn (w : World) (this : ChatViewProvider) (view : WebviewView)
    (stored : option string) (userMessage : string) : Completion unit * Machine :=
  onDidReceiveMessage w (resolveWebviewView this view) (Chat userMessage) (start stored).

End Extension.

(** ** What is observed of a turn *)

Module Observe.
Import JS Host Run Extension.

Definition isOutcome (m : Message) : bool :=
  match m with
  | Response _ | ErrorMessage _ => true
  | _ => false
  end.

Definition isLoading (b : bool) (m : Message) : bool :=
  match m with
  | Loading b' => Bool.eqb b b'
  | _ => false
  end.

Definition isGenerate (r : Request) : bool :=
  match method r with POST => true | GET => false end.

Definition isUpdate (e : Event) : bool :=
  match e with ConfigUpdate _ => true | _ => false end.

(** The [response] and [error] events of a trace *)
Definition outcomes (t : list Event) : list Message :=
  filter isOutcome (posted t).

(** [sub] occurs inside [s] *)
Definition Contains (s sub : string) : Prop :=
  exists before after, s = before ++ sub ++ after.


(** The models that [getAvailableModels] returns when its request
    settles as [o]. *)
Definition listed (o : Result FetchResponse) : list Value :=
  match o with
  | inl _ => []
  | inr r =>
      if ok r then
        match json r with
        | inl _ => []
        | inr data =>
            match model_names data with
            | inl _ => []
            | inr ns => ns
            end
        end
      else []
  end.

(** A body lacks the text of an answer: it has no [candidates], or no
    first candidate, or no [content] in it, or no [parts] there, or no
    first part, or no [text] in that part. *)
Definition lacksText (data : Value) : Prop :=
  let candidate := opt_first (own data "candidates") in
  let content := opt_get candidate "content" in
  let parts := opt_get content "parts" in
  let part := opt_first parts in
  own data "candidates" = VUndefined \/ candidate = VUndefined \/
  content = VUndefined \/ parts = VUndefined \/ part = VUndefined \/
  opt_get part "text" = VUndefined.

(** The envelope of the inner [catch], line 192 *)
Definition envelope (id cause : string) : string :=
  "Failed with model " ++ id ++ ": " ++ cause.

(** The machine after further events *)
Definition emitted (s : Machine) (es : list Event) : Machine :=
  mkMachine (trace s ++ es) (geminiApiKey s) (model s).

(** What [respond] makes of a response: the answer it posts, or the
    error it throws. *)
Definition answerOf (r : FetchResponse) : Result Value :=
  match json r with
  | inl e => inl e
  | inr data =>
      match get data "error" with
      | inl e => inl e
      | inr error =>
          if truthy error then
            match get error "message" with
            | inl e => inl e
            | inr m =>
                match new_Error m with
                | inl e => inl e
                | inr e => inl e
                end
            end
          else aiResponse data
      end
  end.

(** The error that [apiError] throws for a response *)
Definition apiErrorOf (r : FetchResponse) : Error :=
  match text r with
  | inl e => e
  | inr body => mkError ("API Error: " ++ decimal (status r) ++ " - " ++ body)
  end.

(** A listed name that is a string, as the listing declares its names *)
Definition isString (v : Value) : bool :=
  match v with
  | VStr _ => true
  | _ => false
  end.

End Observe.

(** ** Concrete turns *)

Module Scenario.
Import JS Host Run Extension.

Definition provider : ChatViewProvider := mkProvider "file:///devgear" None.

(** A world with nothing to prompt for and an empty workspace *)
Definition world (fetch : nat -> Request -> Result FetchResponse) : World :=
  mkWorld (inr None) (fun _ => None) (inr []) fetch.

(** [{candidates: [{content: {parts: [{text: t}]}}]}] *)
Definition bodyWithText (t : Value) : Value :=
  VObj [("candidates",
         VArr [VObj [("content", VObj [("parts", VArr [VObj [("text", t)]])])]])].

(** [{models: [{name: n}, ...]}] *)
Definition bodyWithModels (ns : list Value) : Value :=
  VObj [("models", VArr (map (fun n => VObj [("name", n)]) ns))].

Definition answers (data : Value) : FetchResponse :=
  mkResponse 200 (inr "") (inr data).

Definition refuses (status : N) (body : string) : FetchResponse :=
  mkResponse status (inr body) (inl (mkError "Unexpected token in JSON")).

(** Every request is answered with 200 and the body [data]. *)
Definition answering (data : Value) : World :=
  world (fun _ _ => inr (answers data)).

(** The default model is not found, the listing gives [ns], and the
    retry is answered with [retry]. *)
Definition fallingBack (ns : list Value) (retry : FetchResponse) : World :=
  world (fun n _ =>
           match n with
           | 0 => inr (refuses 404 "model not found")
           | 1 => inr (answers (bodyWithModels ns))
           | _ => inr retry
           end).

(** The default model is answered with status 503. *)
Definition unavailable : World :=
  world (fun _ _ => inr (refuses 503 "overloaded")).

(** A listed model whose name is an array holding an object with a
    [toString] field: it has no string form. *)
Definition unprintable : Value := VArr [VObj [("toString", VNum "1")]].

(** The fallback is retried once, and the retry is refused too. *)
Definition retried : World :=
  fallingBack [VStr "models/gemini-pro"; VStr "models/gemini-1.5-pro"]
    (refuses 500 "internal").

(** The only listed model has no string form. *)
Definition listingUnprintable : World :=
  fallingBack [unprintable] (answers (bodyWithText (VStr "late"))).

(** The first request that a turn with the key ["key"] and the question
    ["hello"] makes in these worlds *)
Definition firstRequest : Request :=
  generateContent defaultModel (Some "key") (fullPrompt "" "hello").

(** A world where nothing is stored and the prompt is dismissed. *)
Definition dismissed : World :=
  mkWorld (inr None) (fun _ => None) (inr []) (fun _ _ => inl (mkError "offline")).

(** The default model is not found, and the model retried is not found
    either. *)
Definition goneAgain : World :=
  fallingBack [VStr "models/gemini-pro"; VStr "models/gemini-1.5-pro"]
    (refuses 404 "gone").

(** The request that the retry of [goneAgain] and [retried] makes *)
Definition retryRequest : Request :=
  generateContent "models/gemini-1.5-pro" (Some "key") (fullPrompt "" "hello").

(** Two candidates, the first with two parts:
    [{candidates: [{content: {parts: [{text: t}, {text: second}]}},
                   {content: {parts: [{text: other}]}}]}] *)
Definition bodyWithCandidates (t second other : Value) : Value :=
  VObj [("candidates",
         VArr [VObj [("content",
                      VObj [("parts", VArr [VObj [("text", t)];
                                            VObj [("text", second)]])])];
               VObj [("content", VObj [("parts", VArr [VObj [("text", other)]])])]])].

End Scenario.

(** ** The command that sets the key *)

Module Settings.
Import JS Host Run Extension.

Definition keyUpdated : string := "Gemini API key updated successfully!".

(** Lines 19-29, the command [devgear.setApiKey]: the machine after it,
    and the information messages it has shown. *)
Definition setApiKey (w : World) (s : Machine) : Completion unit * Machine * list string :=
  match show_input_box w s with
  | (Normal apiKey, s1) =>
      if given apiKey then
        match config_update w apiKey s1 with
        | (Normal _, s2) => (Normal tt, s2, [keyUpdated])
        | (Return, s2) => (Return, s2, [])
        | (Throw e, s2) => (Throw e, s2, [])
        end
      else (Normal tt, s1, [])
  | (Return, s1) => (Return, s1, [])
  | (Throw e, s1) => (Throw e, s1, [])
  end.

End Settings.

(** ** The script of the webview: the answer as HTML *)

Module Markdown.

Definition backtick : ascii := ascii_of_nat 96.
Definition star : ascii := ascii_of_nat 42.
Definition newline : ascii := ascii_of_nat 10.

Definition fence : string := String backtick (String backtick (String backtick "")).
Definition tick : string := String backtick "".
Definition stars : string := String star (String star "").

Fixpoint drop (n : nat) (s : string) : string :=
  match n, s with
  | S k, String _ rest => drop k rest
  | _, _ => s
  end.

(** The text before the first occurrence of [sep] in [s] *)
Fixpoint before_first (sep s : string) : option string :=
  if String.prefix sep s then Some ""
  else match s with
       | "" => None
       | String c rest => option_map (String c) (before_first sep rest)
       end.

(** The longest prefix of [s] without the character [stop] *)
Fixpoint run_of (stop : ascii) (s : string) : string :=
  match s with
  | "" => ""
  | String c rest => if Ascii.eqb c stop then "" else String c (run_of stop rest)
  end.

(** Line 853: [replace] with a fence, anything (as little as possible), a
    fence, by [<pre>$1</pre>], from left to right over the whole text.
    [skip] counts the characters of a match still to pass over. *)
Fixpoint fences (skip : nat) (s : string) : string :=
  match s with
  | "" => ""
  | String c rest =>
      match skip with
      | S k => fences k rest
      | 0 =>
          if String.prefix fence s then
            match before_first fence (drop 3 s) with
            | Some content =>
                "<pre>" ++ content ++ "</pre>" ++ fences (5 + String.length content) rest
            | None => String c (fences 0 rest)
            end
          else String c (fences 0 rest)
      end
  end.

(** Line 854: a backtick, one or more characters that are not backticks,
    a backtick, by [<code>$1</code>]. *)
Fixpoint codes (skip : nat) (s : string) : string :=
  match s with
  | "" => ""
  | String c rest =>
      match skip with
      | S k => codes k rest
      | 0 =>
          let run := run_of backtick rest in
          if Ascii.eqb c backtick && negb (run =? "")
             && String.prefix tick (drop (String.length run) rest)
          then "<code>" ++ run ++ "</code>" ++ codes (String.length run + 1) rest
          else String c (codes 0 rest)
      end
  end.

(** Line 855: two stars, one or more characters that are not stars, two
    stars, by [<strong>$1</strong>]. *)
Fixpoint bolds (skip : nat) (s : string) : string :=
  match s with
  | "" => ""
  | String c rest =>
      match skip with
      | S k => bolds k rest
      | 0 =>
          let run := run_of star (drop 2 s) in
          if String.prefix stars s && negb (run =? "")
             && String.prefix stars (drop (2 + String.length run) s)
          then "<strong>" ++ run ++ "</strong>" ++ bolds (3 + String.length run) rest
          else String c (bolds 0 rest)
      end
  end.

(** Line 856: every line feed by [<br>] *)
Fixpoint breaks (s : string) : string :=
  match s with
  | "" => ""
  | String c rest =>
      if Ascii.eqb c newline then "<br>" ++ breaks rest else String c (breaks rest)
  end.

(** Lines 851-857 *)
Definition formatAIResponse (content : string) : string :=
  breaks (bolds 0 (codes 0 (fences 0 content))).

(** The character [ch] does not occur in [s]. *)
Fixpoint free (ch : ascii) (s : string) : bool :=
  match s with
  | "" => true
  | String c rest => negb (Ascii.eqb c ch) && free ch rest
  end.

(** Text with no backtick, no star and no line feed *)
Definition plain (s : string) : bool :=
  free backtick s && free star s && free newline s.

End Markdown.

(** ** The script of the webview: sending and receiving *)

Module Script.
Import JS Host Markdown.

(** The white space that [String.prototype.trim] removes, among the code
    units below 256: tab, line feed, vertical tab, form feed, carriage
    return, space, no-break space. *)
Definition isSpace (c : ascii) : bool :=
  let n := nat_of_ascii c in
  (((9 <=? n) && (n <=? 13)) || (n =? 32) || (n =? 160))%nat.

Fixpoint trimStart (s : string) : string :=
  match s with
  | "" => ""
  | String c rest => if isSpace c then trimStart rest else s
  end.

Fixpoint trimEnd (s : string) : string :=
  match s with
  | "" => ""
  | String c rest =>
      if isSpace c && (trimEnd rest =? "") then "" else String c (trimEnd rest)
  end.

Definition trim (s : string) : string := trimEnd (trimStart s).

(** What the script appends to the list of messages: the bubble of
    [addMessage], with the value given to [textContent] or the string given
    to [innerHTML], and the element of the [error] case, whose HTML embeds
    [message.message] as it is. *)
Inductive Rendered : Type :=
| UserText (textContent : Value)
| AiHtml (innerHTML : string)
| ErrorShown (message : string).

(** The state of the script: its variables [isLoading] and
    [messageCount], the value of the input and the state of the button,
    what it has posted to the extension and what it has appended to the
    list of messages.  Styles, animations, focus, scrolling, the welcome
    element and the typing indicator are not part of it. *)
Record Webview : Type := mkWebview {
  isLoading : bool;
  sendDisabled : bool;
  inputValue : string;
  messageCount : nat;
  outbox : list Incoming;
  rendered : list Rendered
}.

(** Lines 810-849.  For the sender [ai] the content goes through
    [formatAIResponse], which throws when it is not a string: the count is
    already incremented, nothing is appended. *)
Definition addMessage (content : Value) (sender : string) (s : Webview) : Webview :=
  let counted := S (messageCount s) in
  if sender =? "ai" then
    match content with
    | VStr text =>
        mkWebview (isLoading s) (sendDisabled s) (inputValue s) counted (outbox s)
          (rendered s ++ [AiHtml (formatAIResponse text)])
    | _ =>
        mkWebview (isLoading s) (sendDisabled s) (inputValue s) counted (outbox s)
          (rendered s)
    end
  else
    mkWebview (isLoading s) (sendDisabled s) (inputValue s) counted (outbox s)
      (rendered s ++ [UserText content]).

(** Lines 781-799 *)
Definition send (s : Webview) : Webview :=
  let text := trim (inputValue s) in
  if (text =? "") || isLoading s then s
  else
    let s1 := addMessage (VStr text) "user" s in
    mkWebview (isLoading s1) (sendDisabled s1) "" (messageCount s1)
      (outbox s1 ++ [Chat text]) (rendered s1).

(** Lines 906-955, the handler of the messages of the extension.
    [welcomeFound] tells whether [document.querySelector('.welcome')]
    finds an element: with one the list of messages is emptied and the
    count reset, without one the [clearChat] case throws before it
    changes anything. *)
Definition receive (welcomeFound : bool) (m : Message) (s : Webview) : Webview :=
  match m with
  | Response v => addMessage v "ai" s
  | Loading b =>
      mkWebview b b (inputValue s) (messageCount s) (outbox s) (rendered s)
  | ErrorMessage text =>
      mkWebview (isLoading s) (sendDisabled s) (inputValue s) (messageCount s)
        (outbox s) (rendered s ++ [ErrorShown text])
  | ClearChat =>
      if welcomeFound
      then mkWebview (isLoading s) (sendDisabled s) (inputValue s) 0 (outbox s) []
      else s
  end.

(** What the user does: edit the input (typing, or a click on a
    suggestion, lines 767-775), or ask to send (a click on the button or
    the Enter key, lines 801-808). *)
Inductive UserEvent : Type :=
| Typed (value : string)
| SendAction.

Definition act (e : UserEvent) (s : Webview) : Webview :=
  match e with
  | Typed value =>
      mkWebview (isLoading s) (sendDisabled s) value (messageCount s) (outbox s)
        (rendered s)
  | SendAction => send s
  end.

Inductive WebEvent : Type :=
| User (e : UserEvent)
| Received (welcomeFound : bool) (m : Message).

Definition step (s : Webview) (e : WebEvent) : Webview :=
  match e with
  | User u => act u s
  | Received welcomeFound m => receive welcomeFound m s
  end.

(** The messages of the extension, received in order *)
Definition deliver (welcomeFound : bool) (ms : list Message) (s : Webview) : Webview :=
  fold_left (fun s m => receive welcomeFound m s) ms s.

(** The script at line 754 *)
Definition loaded : Webview := mkWebview false false "" 0 [] [].

(** A message to the extension that is a [chat] with a text that is not
    empty and has no white space around it *)
Definition wellFormed (m : Incoming) : Prop :=
  exists text, m = Chat text /\ text <> "" /\ trim text = text.

Definition isLoadingMessage (e : WebEvent) : bool :=
  match e with
  | Received _ (Loading _) => true
  | _ => false
  end.

End Script.

(** ** The conditions of the further properties *)

Module Conditions.
Import JS Host Run Extension.

(** Neither [null] nor [undefined]: a value whose properties can be read *)
Definition isObject (v : Value) : bool :=
  match v with
  | VUndefined | VNull => false
  | _ => true
  end.

(** A value that has a method [includes]: a string or an array *)
Definition hasIncludes (m : Value) : bool :=
  match m with
  | VStr _ | VArr _ => true
  | _ => false
  end.

Definition readable (f : File) : bool :=
  match openTextDocument f with
  | inr _ => true
  | inl _ => false
  end.

(** What a file adds to the context (lines 93-95) *)
Definition fileBlock (f : File) : string :=
  match openTextDocument f with
  | inr text => LF ++ "--- FILE: " ++ relativePath f ++ " ---" ++ LF ++ text ++ LF
  | inl _ => ""
  end.

Definition isPrompt (e : Event) : bool :=
  match e with
  | ShowInputBox => true
  | _ => false
  end.

(** The key a turn works with: the stored one, or the one entered. *)
Definition keyUsed (w : World) (stored : option string) : option string :=
  if given stored then stored
  else match showInputBox w with
       | inr entered => entered
       | inl _ => None
       end.

(** A request of a turn that carries the key [key] *)
Definition carries (key : option string) (r : Request) : Prop :=
  r = listModels key \/ exists id prompt, r = generateContent id key prompt.

(** The ways the listing of the models goes wrong: the request is
    rejected, the status is not 2xx, the body does not parse, the body is
    [null], its [models] is not an array, or an entry of the array is
    [null]. *)
Inductive ListingBroken : Result FetchResponse -> Prop :=
| Rejected e : ListingBroken (inl e)
| NotOk r : ok r = false -> ListingBroken (inr r)
| Unparsable r e : json r = inl e -> ListingBroken (inr r)
| NoBody r data :
    json r = inr data -> isObject data = false -> ListingBroken (inr r)
| NoArray r data :
    json r = inr data -> (forall items, own data "models" <> VArr items) ->
    ListingBroken (inr r)
| BadEntry r data items :
    json r = inr data -> own data "models" = VArr items ->
    existsb (fun item => negb (isObject item)) items = true ->
    ListingBroken (inr r).

(** What can fail before the request: the prompt, the update of the
    setting, or the search of the files. *)
Inductive PrepareFails (w : World) (stored : option string) : Error -> Prop :=
| PromptRejects e :
    given stored = false -> showInputBox w = inl e -> PrepareFails w stored e
| UpdateRejects entered e :
    given stored = false -> showInputBox w = inr entered -> given entered = true ->
    configUpdate w (key_text entered) = Some e -> PrepareFails w stored e
| SearchRejectsStored e :
    given stored = true -> findFiles w = inl e -> PrepareFails w stored e
| SearchRejectsEntered entered e :
    given stored = false -> showInputBox w = inr entered -> given entered = true ->
    configUpdate w (key_text entered) = None -> findFiles w = inl e ->
    PrepareFails w stored e.

End Conditions.

(** ** More worlds *)

Module Worlds.
Import JS Host Run Extension Scenario.

(** A readable file, one that cannot be opened, and another readable
    one *)
Definition threeFiles : list File :=
  [mkFile "a.js" (inr "let a;"); mkFile "b.bin" (inl (mkError "binary"));
   mkFile "c.md" (inr "# c")].

(** The workspace holds [threeFiles]. *)
Definition sampled : World :=
  mkWorld (inr None) (fun _ => None) (inr threeFiles)
    (fun _ _ => inl (mkError "offline")).

(** The key ["typed"] is entered at the prompt and stored. *)
Definition entering : World :=
  mkWorld (inr (Some "typed")) (fun _ => None) (inr [])
    (fun _ _ => inl (mkError "offline")).

(** The key is entered, and storing it fails. *)
Definition readOnly : World :=
  mkWorld (inr (Some "typed")) (fun _ => Some (mkError "read-only settings"))
    (inr []) (fun _ _ => inl (mkError "offline")).

(** The search of the files is rejected. *)
Definition noWorkspace : World :=
  mkWorld (inr None) (fun _ => None) (inl (mkError "no workspace"))
    (fun _ _ => inl (mkError "offline")).

(** The network is down. *)
Definition offline : World := world (fun _ _ => inl (mkError "ENOTFOUND")).

(** The answer is not JSON. *)
Definition garbled : FetchResponse :=
  mkResponse 200 (inr "<html>") (inl (mkError "Unexpected token <")).

(** [{error: null, candidates: ...}] *)
Definition bodyWithNullError : Value :=
  VObj [("error", VNull);
        ("candidates",
         VArr [VObj [("content", VObj [("parts", VArr [VObj [("text", VStr "fine")]])])]])].

(** [{error: {code: 400}}] *)
Definition bodyWithBareError : Value :=
  VObj [("error", VObj [("code", VNum "400")])].

End Worlds.

(** ** The operations on concrete values *)

Module Examples.
Import JS Host Run Extension Scenario.

Example ToString_array :
  ToString (VArr [VNum "1"; VNull; VStr "a"; VArr [VBool true; VStr "b"]])
  = inr "1,,a,true,b".
Proof. reflexivity. Qed.

Example ToString_unprintable :
  ToString unprintable = inl (TypeError "Cannot convert object to primitive value").
Proof. reflexivity. Qed.

Example truthy_values :
  map truthy [VStr ""; VStr "0"; VNum "0"; VNum "7"; VNull; VArr []; VObj []]
  = [false; true; false; true; false; true; true].
Proof. reflexivity. Qed.

Example includes_family :
  includes "models/gemini-1.5-pro" "gemini-1.5" = true /\
  includes "models/gemini-pro" "gemini-1.5" = false.
Proof. split; reflexivity. Qed.

Example decimal_status : decimal 404 = "404" /\ decimal 0 = "0".
Proof. split; reflexivity. Qed.

Example candidateText_bodyWithText (t : Value) :
  candidateText (bodyWithText t) = inr t.
Proof. reflexivity. Qed.

Example model_names_listing :
  model_names (bodyWithModels [VStr "m-1.0"; VStr "m-1.5"])
  = inr [VStr "m-1.0"; VStr "m-1.5"].
Proof. reflexivity. Qed.

(** The source looks for ["gemini-1.5"]: among [m-1.0] and [m-1.5] no name
    has it, and the first is chosen. *)
Example chooseFallback_no_family :
  chooseFallback [VStr "m-1.0"; VStr "m-1.5"] = inr (VStr "m-1.0").
Proof. reflexivity. Qed.

(** A turn that falls back and is answered *)
Example fallback_answered :
  posted (trace (snd (chatTurn
                        (fallingBack [VStr "m-1.0"; VStr "gemini-1.5-pro"]
                           (answers (bodyWithText (VStr "ok"))))
                        provider 1 (Some "key") "hello")))
  = [Loading true; Response (VStr "ok"); Loading false].
Proof. reflexivity. Qed.

(** A key entered at the prompt is stored before the request. *)
Example key_entered :
  let result :=
    chatTurn (mkWorld (inr (Some "key")) (fun _ => None) (inr [])
                (fun _ _ => inr (answers (bodyWithText (VStr "ok")))))
      provider 1 None "hello" in
  trace (snd result) =
    [PostMessage 1 (Loading true); ShowInputBox; ConfigUpdate "key";
     Fetch firstRequest; PostMessage 1 (Response (VStr "ok"));
     PostMessage 1 (Loading false)] /\
  geminiApiKey (snd result) = Some "key".
Proof. split; reflexivity. Qed.

End Examples.

(** ** Strings *)

Module StringFacts.
Import JS Observe.

Lemma prefix_app (p s : string) :
  String.prefix p s = true <-> exists rest, s = p ++ rest.
Proof.
  revert s; induction p as [|c p IH]; intros s; simpl.
  - split; [intros _; now exists s | intros _; destruct s; reflexivity].
  - destruct s as [|d s]; simpl.
    + split; [discriminate | intros [rest H]; discriminate].
    + destruct (Ascii.ascii_dec c d) as [->|ne].
      * rewrite IH. split; intros [rest H]; exists rest.
        -- now rewrite H.
        -- now injection H.
      * split; [discriminate | intros [rest H]; injection H; congruence].
Qed.

Lemma includes_Contains (s sub : string) :
  includes s sub = true <-> Contains s sub.
Proof.
  unfold Contains. induction s as [|c s IH].
  - cbn [includes]. rewrite orb_false_r, prefix_app. split.
    + intros [rest H]. now exists "", rest.
    + intros [before [after H]]. destruct before; [now exists after|discriminate].
  - cbn [includes]. rewrite orb_true_iff, prefix_app, IH. split.
    + intros [[rest H] | [before [after H]]].
      * now exists "", rest.
      * exists (String c before), after. simpl. now rewrite H.
    + intros [[|d before] [after H]]; simpl in H.
      * left. now exists after.
      * right. exists before, after. now injection H.
Qed.

Lemma includes_empty (s : string) : includes s "" = true.
Proof. apply includes_Contains. now exists "", s. Qed.

Lemma empty_includes (sub : string) : includes "" sub = true -> sub = "".
Proof.
  intros H. apply includes_Contains in H. destruct H as [before [after H]].
  destruct before; [|discriminate]. destruct sub; [reflexivity|discriminate].
Qed.

Lemma not_includes (s sub : string) :
  includes s sub = false <-> ~ Contains s sub.
Proof.
  rewrite <- includes_Contains. destruct (includes s sub); split; congruence.
Qed.

End StringFacts.

(** ** The fallback choice *)

Module Fallback.
Import JS Host Run Extension Observe StringFacts.

(** On identifiers, [find] stops at the first that includes the token. *)
Lemma find_family_first (token : string) (ids : list string) :
  (exists before id after,
      ids = (before ++ id :: after)%list /\
      includes id token = true /\
      Forall (fun x => includes x token = false) before /\
      find_family token (map VStr ids) = inr (VStr id))
  \/ (Forall (fun x => includes x token = false) ids /\
      find_family token (map VStr ids) = inr VUndefined).
Proof.
  induction ids as [|x ids IH]; simpl.
  - right. split; [constructor | reflexivity].
  - destruct (includes x token) eqn:Hx.
    + left. exists [], x, ids. repeat split; auto.
    + destruct IH as [(before & id & after & -> & Hid & Hb & Hf) | [Hall Hf]].
      * left. exists (x :: before), id, after. repeat split; auto.
      * right. split; auto.
Qed.

Lemma Forall_not_Contains (token : string) (l : list string) :
  Forall (fun x => includes x token = false) l ->
  Forall (fun x => ~ Contains x token) l.
Proof. apply Forall_impl. intros a. apply not_includes. Qed.

(** C2.  For a non-empty sequence of identifiers the fallback is the
    first identifier that contains the preferred family token, and the
    first identifier of the sequence when none contains it; for the empty
    sequence it fails with the no-models-available error.  With the token
    "1.5", the choice among x-1.0, x-1.5, y-2.0 is x-1.5.  This holds for
    every token, so for the one the handler uses, [preferredFamily]. *)
Theorem chooseFallback_prefers_family (token : string) (ids : list string) :
  (ids <> [] ->
   exists id,
     chooseFallbackWith token (map VStr ids) = inr (VStr id) /\
     ((exists before after,
          ids = (before ++ id :: after)%list /\
          Contains id token /\
          Forall (fun x => ~ Contains x token) before)
      \/ (Forall (fun x => ~ Contains x token) ids /\ hd_error ids = Some id)))
  /\ chooseFallbackWith token [] = inl noModelsAvailable
  /\ chooseFallback = chooseFallbackWith preferredFamily
  /\ chooseFallbackWith "1.5" (map VStr ["x-1.0"; "x-1.5"; "y-2.0"]) = inr (VStr "x-1.5").
Proof.
  split; [|repeat split; reflexivity].
  intros Hne. destruct ids as [|first rest]; [congruence|].
  unfold chooseFallbackWith. cbn [map].
  change (VStr first :: map VStr rest) with (map VStr (first :: rest)).
  destruct (find_family_first token (first :: rest))
    as [(before & id & after & Hsplit & Hid & Hb & ->) | [Hall ->]].
  - unfold or_else, truthy. destruct (id =? "") eqn:He; cbn [negb].
    + apply String.eqb_eq in He. subst id.
      apply empty_includes in Hid. subst token.
      destruct before as [|b before].
      * injection Hsplit as -> ->. exists "". split; [reflexivity|].
        left. exists [], after. repeat split; auto. now exists "", "".
      * inversion Hb as [|? ? Hfalse]. now rewrite includes_empty in Hfalse.
    + exists id. split; [reflexivity|]. left. exists before, after.
      repeat split; auto.
      * now apply includes_Contains.
      * now apply Forall_not_Contains.
  - exists first. split; [reflexivity|]. right. split; [|reflexivity].
    now apply Forall_not_Contains.
Qed.

Lemma chooseFallback_prefers_family_witness :
  exists id,
    chooseFallbackWith preferredFamily
      (map VStr ["models/gemini-pro"; "models/gemini-1.5-pro"]) = inr (VStr id) /\
    ((exists before after,
         ["models/gemini-pro"; "models/gemini-1.5-pro"] = (before ++ id :: after)%list /\
         Contains id preferredFamily /\
         Forall (fun x => ~ Contains x preferredFamily) before)
     \/ (Forall (fun x => ~ Contains x preferredFamily)
           ["models/gemini-pro"; "models/gemini-1.5-pro"] /\
         hd_error ["models/gemini-pro"; "models/gemini-1.5-pro"] = Some id)).
Proof.
  apply (proj1 (chooseFallback_prefers_family preferredFamily
                  ["models/gemini-pro"; "models/gemini-1.5-pro"])).
  discriminate.
Defined.

End Fallback.

(** ** The blocks of the handler *)

Module Blocks.
Import JS Host Run Extension Observe.

Lemma respond_spec (view : WebviewView) (r : FetchResponse) (s : Machine) :
  respond view r s =
  match answerOf r with
  | inl e => (Throw e, s)
  | inr a => (Normal tt, emitted s [PostMessage view (Response a)])
  end.
Proof.
  unfold respond, answerOf, emitted, postMessage, emit, eval, bind, ret, throw.
  destruct (json r) as [e|data]; [reflexivity|].
  destruct (get data "error") as [e|error]; [reflexivity|].
  destruct (truthy error).
  - destruct (get error "message") as [e|m]; [reflexivity|].
    destruct (new_Error m); reflexivity.
  - destruct (aiResponse data); reflexivity.
Qed.

Lemma apiError_spec (A : Type) (r : FetchResponse) (s : Machine) :
  @apiError A r s = (Throw (apiErrorOf r), s).
Proof.
  unfold apiError, apiErrorOf, eval, bind, ret, throw.
  destruct (text r); reflexivity.
Qed.

(** [getAvailableModels] makes one request and never throws. *)
Lemma getAvailableModels_spec (w : World) (key : option string) (s : Machine) :
  getAvailableModels w key s =
  (Normal (listed (fetch w (List.length (requests (trace s))) (listModels key))),
   emitted s [Fetch (listModels key)]).
Proof.
  unfold getAvailableModels, listed, emitted, try_catch, do_fetch, emit, eval,
    bind, ret, throw.
  cbn.
  destruct (fetch w (List.length (requests (trace s))) (listModels key)) as [e|r];
    [reflexivity|].
  destruct (ok r); cbn; [|reflexivity].
  destruct (json r) as [e|data]; [reflexivity|].
  destruct (model_names data); reflexivity.
Qed.

Lemma own_get (d : Value) (name : string) (fields : list (string * Value)) :
  own d name = VObj fields -> get d name = inr (VObj fields).
Proof. destruct d; cbn; congruence. Qed.

Lemma answerOf_error (r : FetchResponse) (data : Value)
    (fields : list (string * Value)) (msg : string) :
  json r = inr data ->
  own data "error" = VObj fields ->
  lookup "message" fields = VStr msg ->
  answerOf r = inl (mkError msg).
Proof.
  intros Hjson Herror Hmsg. unfold answerOf.
  rewrite Hjson, (own_get _ _ Herror). cbn. now rewrite Hmsg.
Qed.

Lemma apiErrorOf_text (r : FetchResponse) (body : string) :
  text r = inr body ->
  apiErrorOf r = mkError ("API Error: " ++ decimal (status r) ++ " - " ++ body).
Proof. unfold apiErrorOf. now intros ->. Qed.

Lemma chooseFallback_nil : chooseFallback [] = inl noModelsAvailable.
Proof. reflexivity. Qed.


Lemma answerOf_text (r : FetchResponse) (data t : Value) :
  json r = inr data ->
  get data "error" = inr VUndefined ->
  candidateText data = inr t ->
  answerOf r = inr (or_else t placeholder).
Proof.
  intros Hjson Herror Htext. unfold answerOf, aiResponse.
  rewrite Hjson, Herror, Htext. reflexivity.
Qed.

(** Whatever link of [candidates?.[0]?.content?.parts?.[0]?.text] is
    missing, the whole chain is [undefined]. *)
Lemma candidateText_missing (data : Value) :
  get data "error" = inr VUndefined ->
  lacksText data ->
  candidateText data = inr VUndefined.
Proof.
  intros Herror Hmissing.
  assert (Hget : get data "candidates" = inr (own data "candidates")).
  { destruct data; try reflexivity; discriminate Herror. }
  unfold candidateText. rewrite Hget. f_equal.
  destruct Hmissing as [H | [H | [H | [H | [H | H]]]]].
  - now rewrite H.
  - now rewrite H.
  - now rewrite H.
  - now rewrite H.
  - now rewrite H.
  - exact H.
Qed.

(** The text of the first part of the first candidate of a body without
    an error field is what the handler reads. *)
Lemma first_text_read (data candidate content part : Value)
    (candidates parts : list Value) (t : Value) :
  own data "error" = VUndefined ->
  own data "candidates" = VArr (candidate :: candidates) ->
  own candidate "content" = content ->
  own content "parts" = VArr (part :: parts) ->
  own part "text" = t ->
  t <> VUndefined ->
  get data "error" = inr VUndefined /\ candidateText data = inr t.
Proof.
  intros He Hc Hcontent Hparts Ht Hdef.
  destruct data; try discriminate Hc.
  split; [cbn in He |- *; now rewrite He|].
  unfold candidateText. cbn [get]. rewrite Hc. cbn [opt_first].
  destruct candidate; cbn [opt_get];
    try (cbn in Hcontent; subst content; discriminate Hparts).
  rewrite Hcontent.
  destruct content; cbn [opt_get]; try discriminate Hparts.
  rewrite Hparts. cbn [opt_first].
  destruct part; cbn [opt_get]; try (cbn in Ht; congruence).
  now rewrite Ht.
Qed.

(** Among identifiers the choice is an identifier. *)
Lemma find_family_string (token : string) (ns : list Value) (v : Value) :
  forallb isString ns = true ->
  find_family token ns = inr v ->
  v = VUndefined \/ exists id, v = VStr id.
Proof.
  induction ns as [|n ns IH]; cbn [forallb find_family]; intros Hs Hf.
  - left. congruence.
  - apply andb_true_iff in Hs. destruct Hs as [Hn Hs].
    destruct n; try discriminate Hn. cbn [m_includes] in Hf.
    destruct (includes s token).
    + right. exists s. congruence.
    + now apply IH.
Qed.

Lemma chooseFallback_string (ns : list Value) (v : Value) :
  forallb isString ns = true ->
  chooseFallback ns = inr v ->
  exists id, v = VStr id.
Proof.
  unfold chooseFallback, chooseFallbackWith. intros Hs Hc.
  destruct ns as [|n ns]; [discriminate Hc|].
  destruct (find_family preferredFamily (n :: ns)) as [e|found] eqn:Hf;
    [discriminate Hc|].
  injection Hc as <-.
  cbn [forallb] in Hs. pose proof Hs as Hs'.
  apply andb_true_iff in Hs'. destruct Hs' as [Hn _].
  destruct n; try discriminate Hn.
  destruct (@find_family_string preferredFamily (VStr s :: ns) found Hs Hf)
    as [-> | [id ->]].
  - exists s. reflexivity.
  - unfold or_else. destruct (truthy (VStr id)); eauto.
Qed.

(** Among identifiers the choice succeeds, with one of them. *)
Lemma chooseFallback_listed (ids : list string) :
  ids <> [] ->
  exists id, In id ids /\ chooseFallback (map VStr ids) = inr (VStr id).
Proof.
  intros Hne. destruct ids as [|first rest]; [congruence|].
  unfold chooseFallback, chooseFallbackWith. cbn [map].
  change (VStr first :: map VStr rest) with (map VStr (first :: rest)).
  destruct (Fallback.find_family_first preferredFamily (first :: rest))
    as [(before & id & after & Hsplit & _ & _ & ->) | [_ ->]].
  - unfold or_else. destruct (truthy (VStr id)).
    + exists id. split; [|reflexivity]. rewrite Hsplit.
      apply in_or_app. right. now left.
    + exists first. split; [now left | reflexivity].
  - exists first. split; [now left | reflexivity].
Qed.

Lemma status_404_not_ok (r : FetchResponse) : status r = 404%N -> ok r = false.
Proof. unfold ok. intros ->. reflexivity. Qed.

End Blocks.

(** ** The chat turn *)

Module Turn.
Import JS Host Run Extension Observe Blocks.

#[local] Arguments get : simpl nomatch.
#[local] Arguments truthy : simpl nomatch.
#[local] Arguments new_Error : simpl nomatch.
#[local] Arguments aiResponse : simpl never.
#[local] Arguments answerOf : simpl never.
#[local] Arguments apiErrorOf : simpl never.
#[local] Arguments listed : simpl never.
#[local] Arguments appendFile : simpl never.
#[local] Arguments chooseFallback : simpl never.
#[local] Arguments model_names : simpl never.
#[local] Arguments decimal : simpl never.
#[local] Arguments String.append : simpl never.
#[local] Arguments fullPrompt : simpl never.
#[local] Arguments generateContent : simpl never.
#[local] Arguments listModels : simpl never.
#[local] Arguments key_text : simpl never.
#[local] Arguments given : simpl never.
#[local] Arguments fold_left : simpl never.
#[local] Arguments ok : simpl never.
#[local] Arguments N.eqb : simpl never.
#[local] Arguments respond : simpl never.
#[local] Arguments apiError : simpl never.
#[local] Arguments getAvailableModels : simpl never.

(** Unfolding of a turn down to the machine, the three summarised blocks
    apart *)
Ltac unfold_turn :=
  unfold chatTurn, onDidReceiveMessage, resolveWebviewView, handleChat, start,
    prepare, try_finally, try_catch, obtainApiKey, getWorkspaceContext,
    requestAnswer, wrapFailure, show_input_box, config_update, config_get,
    do_fetch, model_text, set_model, postMessage, emit, eval, bind, ret,
    throw, return_ in *.

(** The next [match] or [if] of [E] whose scrutinee is not itself a
    [match]: what the environment or a JavaScript operation gives there.
    [known E] settles it from an equation already in the context,
    [branch_in E] by a case split. *)
Ltac known E :=
  match type of E with
  | context [if negb ?x then _ else _] =>
      match goal with H : x = _ |- _ => rewrite H in E end
  | context [match ?x with _ => _ end] =>
      match goal with H : x = _ |- _ => rewrite H in E end
  end.

Ltac branch_in E :=
  match type of E with
  | context [if negb ?x then _ else _] =>
      lazymatch x with
      | context [match _ with _ => _ end] => fail
      | _ => destruct x eqn:?
      end
  | context [match ?x with _ => _ end] =>
      lazymatch x with
      | context [match _ with _ => _ end] => fail
      | _ => destruct x eqn:?
      end
  end.

(** One step of the computation of [E], the three summarised blocks by
    their summaries *)
Ltac summarise E :=
  first [ rewrite respond_spec in E
        | rewrite apiError_spec in E
        | rewrite getAvailableModels_spec in E ].

(** Every path of the turn in the goal: its result is named, computed
    path by path, and substituted. *)
Ltac explore :=
  match goal with
  | |- context [chatTurn ?w ?p ?v ?s ?m] =>
      let res := fresh "res" in
      let E := fresh "E" in
      remember (chatTurn w p v s m) as res eqn:E;
      repeat unfold_turn; cbn in E;
      repeat (first [ summarise E | known E | branch_in E ]; cbn in E);
      subst res; cbn in *
  end.

(** The computation of a block in hypothesis [H], along the path the
    context describes *)
Ltac replay H :=
  cbn in H; repeat (first [ summarise H | known H ]; cbn in H).

Ltac status_facts :=
  repeat match goal with
  | H : (_ =? _)%N = true |- _ => apply N.eqb_eq in H
  | H : (_ =? _)%N = false |- _ => apply N.eqb_neq in H
  end.

(** The first request of the turn is the one met on the path. *)
Ltac first_response Hreq Hfetch :=
  try discriminate Hreq; injection Hreq as <-;
  match goal with
  | H : fetch _ 0 _ = _ |- _ =>
      tryif constr_eq H Hfetch then fail else rewrite H in Hfetch
  end;
  try discriminate Hfetch; injection Hfetch as <-.

(** The [n]-th request of the turn is one of those met on the path. *)
Ltac nth_request Hreq Hfetch n :=
  repeat (destruct n as [|n]; cbn in Hreq; try discriminate Hreq);
  try (injection Hreq as <-);
  repeat match goal with
  | H : fetch _ ?k ?q = _, H' : fetch _ ?k ?q = _ |- _ =>
      tryif constr_eq H H' then fail
      else (rewrite H in H'; try discriminate H'; injection H' as <-)
  end.

(** *** The view *)

(** C10.  With no view resolved ([_view] is null) [handleChat] returns at
    once: no event of any kind is emitted and the machine is left as it
    was. *)
Theorem unresolved_view_silent (w : World) (uri userMessage : string) (s : Machine) :
  handleChat w (mkProvider uri None) userMessage s = (Return, s).
Proof. reflexivity. Qed.

(** *** The credential *)

(** C9.  With no key stored and none entered at the prompt, the turn
    posts the error between the two loading events and returns: no
    request is made, no update of the configuration is attempted, and the
    stored setting is unchanged. *)
Theorem missing_credential_aborts (w : World) (this : ChatViewProvider)
    (view : WebviewView) (stored entered : option string) (userMessage : string) :
  given stored = false ->
  showInputBox w = inr entered ->
  given entered = false ->
  let result := chatTurn w this view stored userMessage in
  fst result = Return /\
  trace (snd result) =
    [PostMessage view (Loading true); ShowInputBox;
     PostMessage view (ErrorMessage apiKeyRequired);
     PostMessage view (Loading false)] /\
  requests (trace (snd result)) = [] /\
  filter isUpdate (trace (snd result)) = [] /\
  geminiApiKey (snd result) = stored.
Proof.
  intros Hstored Hprompt Hentered result. subst result.
  repeat unfold_turn. cbn. rewrite Hstored. cbn. rewrite Hprompt. cbn.
  rewrite Hentered. cbn. repeat split; reflexivity.
Qed.

Lemma missing_credential_aborts_witness :
  let result := chatTurn Scenario.dismissed Scenario.provider 1 (Some "") "hello" in
  fst result = Return /\
  trace (snd result) =
    [PostMessage 1 (Loading true); ShowInputBox;
     PostMessage 1 (ErrorMessage apiKeyRequired);
     PostMessage 1 (Loading false)] /\
  requests (trace (snd result)) = [] /\
  filter isUpdate (trace (snd result)) = [] /\
  geminiApiKey (snd result) = Some "".
Proof.
  apply (@missing_credential_aborts Scenario.dismissed Scenario.provider 1
           (Some "") None "hello"); reflexivity.
Defined.

(** *** The events of a turn *)

(** C7.  In every chat turn the first event is [loading{true}], so it
    precedes every request; [loading{true}] and [loading{false}] are each
    posted exactly once, and [loading{false}] is the last event of the
    turn, on every path. *)
Theorem loading_brackets_turn (w : World) (this : ChatViewProvider)
    (view : WebviewView) (stored : option string) (userMessage : string) :
  let t := trace (snd (chatTurn w this view stored userMessage)) in
  hd_error t = Some (PostMessage view (Loading true)) /\
  List.length (filter (isLoading true) (posted t)) = 1 /\
  List.length (filter (isLoading false) (posted t)) = 1 /\
  last t ShowInputBox = PostMessage view (Loading false).
Proof.
  intro t; subst t. explore; repeat split; reflexivity.
Qed.

(** C6.  Every chat turn posts exactly one outcome event, a [response]
    or an [error], on every path. *)
Theorem one_outcome_per_turn (w : World) (this : ChatViewProvider)
    (view : WebviewView) (stored : option string) (userMessage : string) :
  exists outcome,
    outcomes (trace (snd (chatTurn w this view stored userMessage))) = [outcome].
Proof.
  explore; eexists; reflexivity.
Qed.

(** *** The fallback *)


(** After a 404 on the first request, when the listing gives identifiers,
    and at least one, the third request of the turn is the retry: it goes
    to one of them, the one that [chooseFallback] gives, with the key and
    the prompt of the first request. *)
Lemma not_found_is_retried (w : World) (this : ChatViewProvider)
    (view : WebviewView) (stored : option string) (userMessage : string)
    (req : Request) (r : FetchResponse) :
  let t := trace (snd (chatTurn w this view stored userMessage)) in
  hd_error (requests t) = Some req ->
  fetch w 0 req = inr r ->
  status r = 404%N ->
  exists key prompt,
    req = generateContent defaultModel key prompt /\
    forall ids,
      ids <> [] ->
      listed (fetch w 1 (listModels key)) = map VStr ids ->
      exists id,
        In id ids /\
        chooseFallback (map VStr ids) = inr (VStr id) /\
        nth_error (requests t) 2 = Some (generateContent id key prompt).
Proof.
  intros t Hreq Hfetch H404. subst t.
  pose proof (status_404_not_ok _ H404) as Hnok.
  explore; first_response Hreq Hfetch; status_facts; try congruence.
  all: do 2 eexists; (split; [reflexivity|]); intros ids Hne Hlisted.
  all: destruct (chooseFallback_listed Hne) as (id & Hin & Hchosen).
  all: exists id; split; [exact Hin | split; [exact Hchosen|]].
  all: rewrite Hlisted in *.
  all: repeat match goal with
       | H : chooseFallback _ = _ |- _ =>
           tryif constr_eq H Hchosen then fail
           else (rewrite H in Hchosen; try discriminate Hchosen;
                 injection Hchosen as ->)
       end.
  all: try discriminate Hchosen.
  all: cbn in *.
  all: repeat match goal with
       | H : inr _ = inr _ |- _ => injection H as <-
       | H : inr _ = inl _ |- _ => discriminate H
       end.
  all: reflexivity.
Qed.

(** C3, amended.  Of the first response of a turn: status 404, and only
    it, takes the fallback path.  With 404 the handler lists the models;
    when none is listed the error names the model that was tried, and
    when identifiers are listed the turn retries with one of them, the
    one that [chooseFallback] gives.  Any other status leaves the first
    request the only one of the turn; a status that is neither 2xx nor
    404 gives an error carrying the status and the body text; a 2xx body
    with an error object gives an error carrying its message.  Of the
    response to the retry: it is the last request of the turn whatever its
    status, 404 included, and a status that is not 2xx, or an error object
    in the body, gives the same two errors under the name of the model
    retried. *)
Theorem only_404_triggers_fallback (w : World) (this : ChatViewProvider)
    (view : WebviewView) (stored : option string) (userMessage : string)
    (req : Request) (r : FetchResponse) :
  let t := trace (snd (chatTurn w this view stored userMessage)) in
  hd_error (requests t) = Some req ->
  fetch w 0 req = inr r ->
  (status r = 404%N ->
   exists key,
     nth_error (requests t) 1 = Some (listModels key) /\
     (listed (fetch w 1 (listModels key)) = [] ->
      posted t =
        [Loading true;
         ErrorMessage ("Error: " ++ envelope defaultModel (message noModelsAvailable));
         Loading false]))
  /\ (status r = 404%N ->
      exists key prompt,
        req = generateContent defaultModel key prompt /\
        forall ids,
          ids <> [] ->
          listed (fetch w 1 (listModels key)) = map VStr ids ->
          exists id,
            In id ids /\
            chooseFallback (map VStr ids) = inr (VStr id) /\
            nth_error (requests t) 2 = Some (generateContent id key prompt))
  /\ (status r <> 404%N -> requests t = [req])
  /\ (ok r = false -> status r <> 404%N ->
      forall body, text r = inr body ->
      posted t =
        [Loading true;
         ErrorMessage ("Error: " ++ envelope defaultModel
                         ("API Error: " ++ decimal (status r) ++ " - " ++ body));
         Loading false])
  /\ (ok r = true ->
      forall data fields msg,
        json r = inr data ->
        own data "error" = VObj fields ->
        lookup "message" fields = VStr msg ->
        posted t =
          [Loading true;
           ErrorMessage ("Error: " ++ envelope defaultModel msg);
           Loading false])
  /\ (forall retry r2,
        nth_error (requests t) 2 = Some retry ->
        fetch w 2 retry = inr r2 ->
        List.length (requests t) = 3 /\
        exists id key prompt,
          retry = generateContent id key prompt /\
          (ok r2 = false ->
           forall body, text r2 = inr body ->
           posted t =
             [Loading true;
              ErrorMessage ("Error: " ++ envelope id
                              ("API Error: " ++ decimal (status r2) ++ " - " ++ body));
              Loading false]) /\
          (ok r2 = true ->
           forall data fields msg,
             json r2 = inr data ->
             own data "error" = VObj fields ->
             lookup "message" fields = VStr msg ->
             posted t =
               [Loading true;
                ErrorMessage ("Error: " ++ envelope id msg);
                Loading false])).
Proof.
  intros t Hreq Hfetch.
  pose proof (@not_found_is_retried w this view stored userMessage req r
                Hreq Hfetch) as Hretried.
  match goal with
  | |- ?A /\ _ /\ ?Rest =>
      cut (A /\ Rest);
      [intros [HA HRest]; split; [exact HA | split; [exact Hretried | exact HRest]]|]
  end.
  clear Hretried. subst t.
  explore; first_response Hreq Hfetch; status_facts.
  all: repeat match goal with |- _ /\ _ => split end; intros.
  all: try congruence.
  all: try (exfalso;
            match goal with
            | H : status _ = 404%N |- _ => apply status_404_not_ok in H
            end; congruence).
  all: try match goal with
       | H : None = Some _ |- _ => discriminate H
       | H : Some ?q = Some ?retry, H2 : fetch _ 2 ?retry = inr ?r2 |- _ =>
           injection H as <-;
           match goal with
           | H3 : fetch _ 2 _ = _ |- _ =>
               tryif constr_eq H3 H2 then fail
               else (rewrite H3 in H2; try discriminate H2; injection H2 as <-)
           end;
           (split; [reflexivity|]);
           do 3 eexists; (split; [reflexivity|]); split; intros
       end.
  all: try congruence.
  all: try match goal with
       | Hj : json ?f = inr _, Ho : own _ _ = VObj _, Hm : lookup _ _ = VStr _ |- _ =>
           pose proof (answerOf_error _ Hj Ho Hm); try congruence
       | Ht : text ?f = inr _ |- _ => rewrite (apiErrorOf_text _ Ht); reflexivity
       | |- exists _, _ =>
           eexists; split; [reflexivity|]; intros Hl; rewrite Hl in *
       end.
  all: try match goal with
       | H1 : ?x = inl ?e, H2 : ?x = inl (mkError _) |- _ =>
           rewrite H2 in H1; injection H1 as <-; reflexivity
       | H : chooseFallback [] = inl ?e |- _ =>
           rewrite chooseFallback_nil in H; injection H as <-; reflexivity
       | H : chooseFallback [] = inr _ |- _ =>
           rewrite chooseFallback_nil in H; discriminate H
       end.
Qed.

(** *** The answer *)

(** C4, amended.  When a request for content is answered with a 2xx
    status and a body that has no error field and whose first candidate
    has a first part with a text that is a string, the turn posts that
    text, unchanged, as its response when it is not empty, and the
    placeholder when it is empty.  The candidates after the first and the
    parts after the first play no part. *)
Theorem answer_text_verbatim (w : World) (this : ChatViewProvider)
    (view : WebviewView) (stored : option string) (userMessage : string)
    (n : nat) (req : Request) (r : FetchResponse)
    (data candidate content part : Value) (candidates parts : list Value)
    (answer : string) :
  let t := trace (snd (chatTurn w this view stored userMessage)) in
  nth_error (requests t) n = Some req ->
  isGenerate req = true ->
  fetch w n req = inr r ->
  ok r = true ->
  json r = inr data ->
  own data "error" = VUndefined ->
  own data "candidates" = VArr (candidate :: candidates) ->
  own candidate "content" = content ->
  own content "parts" = VArr (part :: parts) ->
  own part "text" = VStr answer ->
  (answer <> "" ->
   posted t = [Loading true; Response (VStr answer); Loading false]) /\
  (answer = "" ->
   posted t = [Loading true; Response placeholder; Loading false]).
Proof.
  intros t Hreq Hgen Hfetch Hok Hjson Hnone Hcands Hcontent Hparts Htext. subst t.
  assert (Hdef : VStr answer <> VUndefined) by discriminate.
  destruct (@first_text_read data candidate content part candidates parts
              (VStr answer) Hnone Hcands Hcontent Hparts Htext Hdef)
    as [Herr Hread].
  pose proof (answerOf_text _ Hjson Herr Hread) as Hans.
  assert (Hposted :
            posted (trace (snd (chatTurn w this view stored userMessage))) =
            [Loading true; Response (or_else (VStr answer) placeholder);
             Loading false]).
  { remember (or_else (VStr answer) placeholder) as posted_answer.
    explore; nth_request Hreq Hfetch n; try discriminate Hgen; congruence. }
  rewrite Hposted. unfold or_else, truthy. split; intros H.
  - destruct (String.eqb_spec answer ""); [contradiction|reflexivity].
  - subst answer. reflexivity.
Qed.

(** C5, amended.  When a request for content is answered with a 2xx
    status and a body that is not null (reading its [error] succeeds), has
    no error field, and lacks the text (no candidates, no content, no
    parts or no text in the first part), the turn posts the placeholder as
    its response, and the handler does not throw. *)
Theorem missing_text_placeholder (w : World) (this : ChatViewProvider)
    (view : WebviewView) (stored : option string) (userMessage : string)
    (n : nat) (req : Request) (r : FetchResponse) (data : Value) :
  let result := chatTurn w this view stored userMessage in
  let t := trace (snd result) in
  nth_error (requests t) n = Some req ->
  isGenerate req = true ->
  fetch w n req = inr r ->
  ok r = true ->
  json r = inr data ->
  get data "error" = inr VUndefined ->
  lacksText data ->
  posted t = [Loading true; Response placeholder; Loading false] /\
  (forall e, fst result <> Throw e).
Proof.
  intros result t Hreq Hgen Hfetch Hok Hjson Herr Hlacks. subst t result.
  pose proof (candidateText_missing Herr Hlacks) as Htext.
  pose proof (answerOf_text _ Hjson Herr Htext) as Hans.
  change (or_else VUndefined placeholder) with placeholder in Hans.
  explore; nth_request Hreq Hfetch n; try discriminate Hgen; try congruence.
  all: split; [congruence | intros e; discriminate].
Qed.

(** *** Failures *)

(** C8.  With the names of the listing strings, as the listing declares
    them: when the block of the request (the inner [try], with the
    request to the model, the listing and the retry) throws [cause], the
    model variable holds an identifier [id], and the handler catches the
    error: the turn completes, its one outcome event is the error
    "Error: Failed with model id: cause", and [id] is the model of the
    last request for content that the turn made. *)
Theorem failure_envelope (w : World) (this : ChatViewProvider)
    (view : WebviewView) (stored : option string) (userMessage : string)
    (ready : option string * string) (s0 s1 : Machine) (cause : Error) :
  (forall key, forallb isString (listed (fetch w 1 (listModels key))) = true) ->
  prepare w view userMessage (start stored) = (Normal ready, s0) ->
  requestAnswer w view (fst ready) (snd ready) s0 = (Throw cause, s1) ->
  let result := chatTurn w this view stored userMessage in
  exists id,
    model s1 = VStr id /\
    fst result = Normal tt /\
    outcomes (trace (snd result)) =
      [ErrorMessage ("Error: " ++ envelope id (message cause))] /\
    exists prompt,
      last (filter isGenerate (requests (trace (snd result)))) (listModels None) =
      generateContent id (fst ready) prompt.
Proof.
  intros Hnames Hprep Hreq result. subst result.
  explore.
  all: replay Hprep; try discriminate Hprep.
  all: injection Hprep as <- <-.
  all: replay Hreq; try discriminate Hreq.
  all: injection Hreq as <- <-.
  all: try match goal with
       | H : chooseFallback (listed (fetch _ 1 (listModels ?k))) = inr ?v |- _ =>
           let Hv := fresh "Hv" in
           destruct (chooseFallback_string _ (Hnames k) H) as [? Hv];
           rewrite Hv in *
       end.
  all: cbn in *.
  all: repeat match goal with
       | H : inr _ = inr _ |- _ => injection H as <-
       | H : inr _ = inl _ |- _ => discriminate H
       | H : inl _ = inr _ |- _ => discriminate H
       end.
  all: eexists; split; [reflexivity|].
  all: split; [reflexivity | split; [reflexivity | eexists; reflexivity]].
Qed.

(** *** The theorems at work, and where the stated claims stop *)

Import Scenario.


Lemma only_404_triggers_fallback_witness :
  let t := trace (snd (chatTurn goneAgain provider 1 (Some "key") "hello")) in
  exists key prompt,
    firstRequest = generateContent defaultModel key prompt /\
    forall ids,
      ids <> [] ->
      listed (fetch goneAgain 1 (listModels key)) = map VStr ids ->
      exists id,
        In id ids /\
        chooseFallback (map VStr ids) = inr (VStr id) /\
        nth_error (requests t) 2 = Some (generateContent id key prompt).
Proof.
  apply (proj1 (proj2
           (@only_404_triggers_fallback goneAgain provider 1 (Some "key") "hello"
              firstRequest (refuses 404 "model not found") eq_refl eq_refl))).
  reflexivity.
Defined.

Lemma answer_text_verbatim_witness :
  let body := bodyWithCandidates (VStr "This function adds two numbers.")
                (VStr "a second part") (VStr "another candidate") in
  posted (trace (snd (chatTurn (answering body) provider 1 (Some "key") "hello"))) =
  [Loading true; Response (VStr "This function adds two numbers."); Loading false].
Proof.
  apply (proj1
           (@answer_text_verbatim
              (answering (bodyWithCandidates (VStr "This function adds two numbers.")
                            (VStr "a second part") (VStr "another candidate")))
              provider 1 (Some "key") "hello" 0 firstRequest
              (answers (bodyWithCandidates (VStr "This function adds two numbers.")
                          (VStr "a second part") (VStr "another candidate")))
              (bodyWithCandidates (VStr "This function adds two numbers.")
                 (VStr "a second part") (VStr "another candidate"))
              (VObj [("content",
                      VObj [("parts",
                             VArr [VObj [("text", VStr "This function adds two numbers.")];
                                   VObj [("text", VStr "a second part")]])])])
              (VObj [("parts",
                      VArr [VObj [("text", VStr "This function adds two numbers.")];
                            VObj [("text", VStr "a second part")]])])
              (VObj [("text", VStr "This function adds two numbers.")])
              [VObj [("content",
                      VObj [("parts", VArr [VObj [("text", VStr "another candidate")]])])]]
              [VObj [("text", VStr "a second part")]]
              "This function adds two numbers."
              eq_refl eq_refl eq_refl eq_refl eq_refl eq_refl eq_refl eq_refl
              eq_refl eq_refl)).
  discriminate.
Defined.

Lemma missing_text_placeholder_witness :
  let result := chatTurn (answering (VObj [("candidates", VArr [])]))
                  provider 1 (Some "key") "hello" in
  posted (trace (snd result)) = [Loading true; Response placeholder; Loading false] /\
  (forall e, fst result <> Throw e).
Proof.
  apply (@missing_text_placeholder (answering (VObj [("candidates", VArr [])]))
           provider 1 (Some "key") "hello" 0 firstRequest
           (answers (VObj [("candidates", VArr [])]))
           (VObj [("candidates", VArr [])]));
    try reflexivity.
  right; left; reflexivity.
Defined.

Lemma failure_envelope_witness :
  let result := chatTurn retried provider 1 (Some "key") "hello" in
  exists id,
    VStr "models/gemini-1.5-pro" = VStr id /\
    fst result = Normal tt /\
    outcomes (trace (snd result)) =
      [ErrorMessage ("Error: " ++ envelope id "API Error: 500 - internal")] /\
    exists prompt,
      last (filter isGenerate (requests (trace (snd result)))) (listModels None) =
      generateContent id (Some "key") prompt.
Proof.
  apply (@failure_envelope retried provider 1 (Some "key") "hello"
           (Some "key", fullPrompt "" "hello")
           (mkMachine [PostMessage 1 (Loading true)] (Some "key") (VStr defaultModel))
           (mkMachine
              [PostMessage 1 (Loading true); Fetch firstRequest;
               Fetch (listModels (Some "key")); Fetch retryRequest]
              (Some "key") (VStr "models/gemini-1.5-pro"))
           (mkError "API Error: 500 - internal"));
    [intros key; reflexivity | reflexivity | reflexivity].
Defined.

(** C3 as stated fails on the response to the retry: it is a failing
    response with status 404, yet no listing and no other request follows
    it, and its error is the one of every other status, the status and the
    text of the body after [API Error: ], under the name of the model
    retried. *)
Lemma retry_404_is_generic :
  let w := goneAgain in
  let t := trace (snd (chatTurn w provider 1 (Some "key") "hello")) in
  requests t = [firstRequest; listModels (Some "key"); retryRequest] /\
  fetch w 2 retryRequest = inr (refuses 404 "gone") /\
  status (refuses 404 "gone") = 404%N /\
  posted t =
    [Loading true;
     ErrorMessage
       "Error: Failed with model models/gemini-1.5-pro: API Error: 404 - gone";
     Loading false] /\
  posted (trace (snd (chatTurn retried provider 1 (Some "key") "hello"))) =
    [Loading true;
     ErrorMessage
       "Error: Failed with model models/gemini-1.5-pro: API Error: 500 - internal";
     Loading false].
Proof.
  repeat split; reflexivity.
Qed.

(** C4 as stated fails on an empty text: the body has no error field and
    its first candidate has a first part with a text, the empty string,
    and the turn posts the placeholder instead of it. *)
Lemma empty_text_replaced :
  let w := answering (bodyWithText (VStr "")) in
  let t := trace (snd (chatTurn w provider 1 (Some "key") "hello")) in
  nth_error (requests t) 0 = Some firstRequest /\
  isGenerate firstRequest = true /\
  fetch w 0 firstRequest = inr (answers (bodyWithText (VStr ""))) /\
  status (answers (bodyWithText (VStr ""))) = 200%N /\
  get (bodyWithText (VStr "")) "error" = inr VUndefined /\
  candidateText (bodyWithText (VStr "")) = inr (VStr "") /\
  posted t = [Loading true; Response (VStr "No response received"); Loading false] /\
  posted t <> [Loading true; Response (VStr ""); Loading false].
Proof.
  repeat split; try reflexivity. discriminate.
Qed.

(** C5 as stated fails on the body [null]: it has no error field and no
    candidates, reading its [error] throws, and the turn posts an error
    instead of the placeholder. *)
Lemma null_body_throws :
  let w := answering VNull in
  let t := trace (snd (chatTurn w provider 1 (Some "key") "hello")) in
  nth_error (requests t) 0 = Some firstRequest /\
  isGenerate firstRequest = true /\
  fetch w 0 firstRequest = inr (answers VNull) /\
  status (answers VNull) = 200%N /\
  own VNull "error" = VUndefined /\
  lacksText VNull /\
  (forall s, fst (respond 1 (answers VNull) s) =
             Throw (TypeError "Cannot read properties of null (reading 'error')")) /\
  posted t =
    [Loading true;
     ErrorMessage
       "Error: Failed with model gemini-1.5-flash: Cannot read properties of null (reading 'error')";
     Loading false] /\
  posted t <> [Loading true; Response placeholder; Loading false].
Proof.
  repeat split; try reflexivity.
  - left; reflexivity.
  - discriminate.
Qed.

(** The names of the listing have to be strings for the envelope: when
    the chosen name has no string form (here an array holding an object
    with a [toString] field, which the listing does not declare), the
    request block throws while building the address of the retry, the
    inner [catch] throws again while building its message, and the error
    event carries no envelope. *)
Lemma unprintable_model_unwrapped :
  let w := listingUnprintable in
  let result := chatTurn w provider 1 (Some "key") "hello" in
  chooseFallback [unprintable] = inr unprintable /\
  (exists ready s0 cause s1,
      prepare w 1 "hello" (start (Some "key")) = (Normal ready, s0) /\
      requestAnswer w 1 (fst ready) (snd ready) s0 = (Throw cause, s1)) /\
  outcomes (trace (snd result)) =
    [ErrorMessage "Error: Cannot convert object to primitive value"] /\
  forall id cause,
    outcomes (trace (snd result)) <>
    [ErrorMessage ("Error: " ++ envelope id cause)].
Proof.
  repeat split; try reflexivity.
  - do 4 eexists. split; reflexivity.
  - intros id cause H. discriminate H.
Qed.

End Turn.

(** ** Appending strings *)

Module AppendFacts.

Lemma append_assoc (a b c : string) : (a ++ b) ++ c = a ++ (b ++ c).
Proof. induction a as [|x a IH]; cbn; [reflexivity|now rewrite IH]. Qed.

Lemma append_nil_r (a : string) : a ++ "" = a.
Proof. induction a as [|x a IH]; cbn; [reflexivity|now rewrite IH]. Qed.

Lemma length_append (a b : string) :
  String.length (a ++ b) = String.length a + String.length b.
Proof. induction a as [|x a IH]; cbn; [reflexivity|now rewrite IH]. Qed.

End AppendFacts.

(** ** The listing of the models *)

Module Listing.
Import JS Host Run Extension Observe Conditions Blocks Scenario.

Lemma names_all (items : list Value) :
  forallb isObject items = true ->
  names items = inr (map (fun item => own item "name") items).
Proof.
  induction items as [|item items IH]; cbn [forallb names map]; [reflexivity|].
  intros H. apply andb_true_iff in H. destruct H as [Hi Hrest].
  rewrite (IH Hrest). destruct item; try discriminate Hi; reflexivity.
Qed.

Lemma names_bad (items : list Value) :
  existsb (fun item => negb (isObject item)) items = true ->
  exists e, names items = inl e.
Proof.
  induction items as [|item items IH]; cbn [existsb names]; [discriminate|].
  intros H. destruct (isObject item) eqn:Hi.
  - cbn in H. destruct (IH H) as [e He]. rewrite He.
    destruct item; try discriminate Hi; cbn; eauto.
  - destruct item; try discriminate Hi; cbn; eauto.
Qed.

(** X1.  [getAvailableModels] never throws: in every world and from every
    machine it completes normally with an array, after exactly one
    request, the listing with the given key, and it posts nothing to the
    webview and leaves the stored key and the current model as they
    were. *)
Theorem getAvailableModels_never_throws (w : World) (key : option string) (s : Machine) :
  exists models,
    fst (getAvailableModels w key s) = Normal models /\
    trace (snd (getAvailableModels w key s)) = (trace s ++ [Fetch (listModels key)])%list /\
    posted (trace (snd (getAvailableModels w key s))) = posted (trace s) /\
    geminiApiKey (snd (getAvailableModels w key s)) = geminiApiKey s /\
    model (snd (getAvailableModels w key s)) = model s.
Proof.
  rewrite getAvailableModels_spec. eexists. cbn.
  repeat split. unfold posted. rewrite flat_map_app. cbn. apply app_nil_r.
Qed.

(** X2.  When the listing is answered with a 2xx status and a body whose
    [models] is an array without [null] entries, [getAvailableModels]
    gives the [name] of every entry, in the order of the array, one per
    entry ([undefined] for an entry without a name). *)
Theorem listing_names_in_order (w : World) (key : option string) (s : Machine)
    (r : FetchResponse) (data : Value) (items : list Value) :
  fetch w (List.length (requests (trace s))) (listModels key) = inr r ->
  ok r = true ->
  json r = inr data ->
  own data "models" = VArr items ->
  forallb isObject items = true ->
  fst (getAvailableModels w key s) = Normal (map (fun item => own item "name") items).
Proof.
  intros Hf Hok Hj Hm Hall. rewrite getAvailableModels_spec. cbn [fst].
  unfold listed. rewrite Hf, Hok, Hj. unfold model_names.
  assert (Hget : get data "models" = inr (VArr items)).
  { destruct data; cbn in Hm |- *; try discriminate Hm. now rewrite Hm. }
  rewrite Hget, (names_all _ Hall). reflexivity.
Qed.

Lemma listing_names_in_order_witness :
  fst (getAvailableModels
         (answering (bodyWithModels [VStr "models/a"; VNum "7"]))
         (Some "key") (start (Some "key"))) =
  Normal [VStr "models/a"; VNum "7"].
Proof.
  apply (@listing_names_in_order
           (answering (bodyWithModels [VStr "models/a"; VNum "7"]))
           (Some "key") (start (Some "key"))
           (answers (bodyWithModels [VStr "models/a"; VNum "7"]))
           (bodyWithModels [VStr "models/a"; VNum "7"])
           [VObj [("name", VStr "models/a")]; VObj [("name", VNum "7")]]);
    reflexivity.
Defined.

(** X3.  Whatever goes wrong with the listing gives the empty array: a
    rejected request, a status that is not 2xx, a body that does not
    parse, a [null] body, a body whose [models] is not an array, or an
    array with a [null] entry (the names of the other entries are lost
    with it). *)
Theorem broken_listing_is_empty (w : World) (key : option string) (s : Machine) :
  ListingBroken (fetch w (List.length (requests (trace s))) (listModels key)) ->
  fst (getAvailableModels w key s) = Normal [].
Proof.
  intros H. rewrite getAvailableModels_spec. cbn [fst]. f_equal. unfold listed.
  inversion H as [e He | r Hok He | r e Hj He | r data Hj Hd He | r data Hj Hm He
                 | r data items Hj Hm Hbad He]; try reflexivity.
  - now rewrite Hok.
  - destruct (ok r); [|reflexivity]. now rewrite Hj.
  - destruct (ok r); [|reflexivity]. rewrite Hj.
    destruct data; try discriminate Hd; reflexivity.
  - destruct (ok r); [|reflexivity]. rewrite Hj. unfold model_names.
    destruct data; try reflexivity. cbn in Hm |- *.
    destruct (lookup "models" fields) eqn:Hl; try reflexivity.
    exfalso. now apply (Hm items).
  - destruct (ok r); [|reflexivity]. rewrite Hj. unfold model_names.
    assert (Hget : get data "models" = inr (VArr items)).
    { destruct data; cbn in Hm |- *; try discriminate Hm. now rewrite Hm. }
    rewrite Hget. destruct (names_bad _ Hbad) as [e ->]. reflexivity.
Qed.

Lemma broken_listing_is_empty_witness :
  fst (getAvailableModels
         (answering (VObj [("models", VArr [VObj [("name", VStr "models/a")]; VNull])]))
         (Some "key") (start (Some "key"))) = Normal [].
Proof.
  apply (@broken_listing_is_empty
           (answering (VObj [("models", VArr [VObj [("name", VStr "models/a")]; VNull])]))
           (Some "key") (start (Some "key"))).
  apply (@BadEntry
           (answers (VObj [("models", VArr [VObj [("name", VStr "models/a")]; VNull])]))
           (VObj [("models", VArr [VObj [("name", VStr "models/a")]; VNull])])
           [VObj [("name", VStr "models/a")]; VNull]);
    reflexivity.
Defined.

End Listing.

(** ** The context of the workspace *)

Module Context.
Import JS Host Run Extension Conditions AppendFacts Worlds.

Lemma appendFile_block (acc : string) (f : File) :
  appendFile acc f = acc ++ fileBlock f.
Proof.
  unfold appendFile, fileBlock.
  destruct (openTextDocument f); [now rewrite append_nil_r|reflexivity].
Qed.

Lemma fold_appendFile (files : list File) (acc : string) :
  fold_left appendFile files acc = acc ++ fold_left appendFile files "".
Proof.
  revert acc. induction files as [|f files IH]; intros acc; cbn [fold_left].
  - now rewrite append_nil_r.
  - rewrite (IH (appendFile acc f)), (IH (appendFile "" f)), !appendFile_block.
    cbn [append]. now rewrite append_assoc.
Qed.

Lemma fold_filter_readable (files : list File) (acc : string) :
  fold_left appendFile files acc = fold_left appendFile (filter readable files) acc.
Proof.
  revert acc.
  induction files as [|f files IH]; intros acc; cbn [fold_left filter]; [reflexivity|].
  assert (Hcases : (readable f = false /\ appendFile acc f = acc) \/ readable f = true).
  { unfold readable, appendFile. destruct (openTextDocument f); auto. }
  destruct Hcases as [[-> ->] | ->]; [apply IH | cbn [fold_left]; apply IH].
Qed.

(** X4.  The context is the blocks of the files in the order of the
    enumeration: a file anywhere in the list adds its own block, the
    header with its relative path and then its text, between the context
    of the files before it and the context of the files after it; a file
    that cannot be opened adds the empty block. *)
Theorem context_in_enumeration_order (before after : list File) (f : File) :
  fold_left appendFile (before ++ f :: after)%list "" =
  fold_left appendFile before "" ++ fileBlock f ++ fold_left appendFile after "".
Proof.
  rewrite fold_left_app. cbn [fold_left].
  rewrite fold_appendFile, appendFile_block. now rewrite append_assoc.
Qed.

(** X5.  When the search of the files succeeds, [getWorkspaceContext]
    completes normally, changes nothing of the machine, and gives the
    context of the files that can be opened: the files that cannot are
    skipped, and do not stop the files after them. *)
Theorem unreadable_files_skipped (w : World) (s : Machine) (files : list File) :
  findFiles w = inr files ->
  getWorkspaceContext w s =
  (Normal (fold_left appendFile (filter readable files) ""), s).
Proof.
  intros H. unfold getWorkspaceContext, bind, eval, ret. rewrite H.
  now rewrite <- fold_filter_readable.
Qed.

Lemma unreadable_files_skipped_witness :
  getWorkspaceContext sampled (start None) =
  (Normal (LF ++ "--- FILE: a.js ---" ++ LF ++ "let a;" ++ LF ++
           LF ++ "--- FILE: c.md ---" ++ LF ++ "# c" ++ LF),
   start None).
Proof.
  apply (@unreadable_files_skipped sampled (start None) threeFiles). reflexivity.
Defined.

End Context.

(** ** The choice of the fallback, on any listing *)

Module Choice.
Import JS Host Run Extension StringFacts Conditions.

Lemma find_family_stops (token : string) (before : list string) (id : string)
    (rest : list Value) :
  Forall (fun x => includes x token = false) before ->
  includes id token = true ->
  find_family token (map VStr before ++ VStr id :: rest)%list = inr (VStr id).
Proof.
  intros Hb Hid. induction Hb as [|x before Hx Hb IH]; cbn.
  - now rewrite Hid.
  - now rewrite Hx.
Qed.

(** X6.  The choice stops at the first identifier that contains the
    token: when the entries before it are strings without the token, it
    is chosen whatever follows it, strings or not. *)
Theorem entries_after_match_ignored (token : string) (before : list string)
    (id : string) (rest : list Value) :
  Forall (fun x => includes x token = false) before ->
  includes id token = true ->
  chooseFallbackWith token (map VStr before ++ VStr id :: rest)%list = inr (VStr id).
Proof.
  intros Hb Hid. unfold chooseFallbackWith.
  rewrite (@find_family_stops token before id rest Hb Hid).
  destruct before as [|first before]; cbn [map app].
  - unfold or_else. now destruct (truthy (VStr id)).
  - unfold or_else, truthy. destruct (id =? "") eqn:He; [|reflexivity].
    apply String.eqb_eq in He. subst id. apply empty_includes in Hid. subst token.
    inversion Hb as [|? ? Hfalse]. now rewrite includes_empty in Hfalse.
Qed.

Lemma entries_after_match_ignored_witness :
  chooseFallbackWith "gemini-1.5"
    [VStr "models/gemini-pro"; VStr "models/gemini-1.5-pro"; VNull;
     VStr "models/gemini-1.5-flash"] =
  inr (VStr "models/gemini-1.5-pro").
Proof.
  apply (@entries_after_match_ignored "gemini-1.5" ["models/gemini-pro"]
           "models/gemini-1.5-pro" [VNull; VStr "models/gemini-1.5-flash"]);
    [repeat constructor | reflexivity].
Defined.

(** X7.  An entry without an [includes] method ([undefined], [null], a
    boolean, a number, an object) that comes before any identifier with
    the token makes the choice throw: neither an identifier with the
    token after it nor the first identifier of the list is chosen. *)
Theorem malformed_entry_aborts_choice (token : string) (before : list string)
    (m : Value) (rest : list Value) :
  Forall (fun x => includes x token = false) before ->
  hasIncludes m = false ->
  exists e, chooseFallbackWith token (map VStr before ++ m :: rest)%list = inl e.
Proof.
  intros Hb Hm.
  assert (Hfind : exists e, find_family token (map VStr before ++ m :: rest)%list = inl e).
  { induction Hb as [|x before Hx Hb IH]; cbn.
    - destruct m; try discriminate Hm; cbn; eauto.
    - now rewrite Hx. }
  destruct Hfind as [e He]. exists e. unfold chooseFallbackWith. rewrite He.
  destruct before; reflexivity.
Qed.

Lemma malformed_entry_aborts_choice_witness :
  exists e,
    chooseFallbackWith "gemini-1.5"
      [VStr "models/gemini-pro"; VUndefined; VStr "models/gemini-1.5-pro"] = inl e.
Proof.
  apply (@malformed_entry_aborts_choice "gemini-1.5" ["models/gemini-pro"]
           VUndefined [VStr "models/gemini-1.5-pro"]);
    [repeat constructor | reflexivity].
Defined.

End Choice.

(** ** The command that sets the key *)

Module Command.
Import JS Host Run Extension Settings.

(** X8.  The command [devgear.setApiKey] posts nothing to the webview and
    makes no request.  Either it leaves the stored key as it was and
    shows no message (the prompt was rejected or dismissed, the entry
    empty, or the update failed), or a non-empty key was entered, it is
    now the stored key, and the success message is shown. *)
Theorem command_stores_only_entered_key (w : World) (s : Machine) :
  let run := setApiKey w s in
  let after := snd (fst run) in
  posted (trace after) = posted (trace s) /\
  requests (trace after) = requests (trace s) /\
  ((geminiApiKey after = geminiApiKey s /\ snd run = []) \/
   (exists k, showInputBox w = inr (Some k) /\ k <> "" /\
              geminiApiKey after = Some k /\ snd run = [keyUpdated] /\
              fst (fst run) = Normal tt)).
Proof.
  unfold setApiKey, show_input_box, config_update, emit, eval, bind, ret, throw.
  cbn.
  destruct (showInputBox w) as [e|entered] eqn:Hp; cbn.
  - repeat split;
      try (unfold posted, requests; rewrite flat_map_app; cbn; apply app_nil_r).
    now left.
  - destruct (given entered) eqn:Hg; cbn.
    + destruct (configUpdate w (key_text entered)) as [e|] eqn:Hu; cbn.
      * repeat split;
          try (unfold posted, requests; rewrite !flat_map_app; cbn;
               now rewrite !app_nil_r).
        now left.
      * repeat split;
          try (unfold posted, requests; rewrite !flat_map_app; cbn;
               now rewrite !app_nil_r).
        right. destruct entered as [k|]; [|discriminate Hg].
        exists k. repeat split; auto.
        intros ->. discriminate Hg.
    + repeat split;
        try (unfold posted, requests; rewrite flat_map_app; cbn; apply app_nil_r).
      now left.
Qed.

End Command.

(** ** More of the chat turn *)

Module Session.
Import JS Host Run Extension Observe Conditions Blocks Turn Scenario Worlds Settings.

#[local] Arguments get : simpl nomatch.
#[local] Arguments truthy : simpl nomatch.
#[local] Arguments new_Error : simpl nomatch.
#[local] Arguments aiResponse : simpl never.
#[local] Arguments answerOf : simpl never.
#[local] Arguments apiErrorOf : simpl never.
#[local] Arguments listed : simpl never.
#[local] Arguments appendFile : simpl never.
#[local] Arguments chooseFallback : simpl never.
#[local] Arguments model_names : simpl never.
#[local] Arguments decimal : simpl never.
#[local] Arguments String.append : simpl never.
#[local] Arguments fullPrompt : simpl never.
#[local] Arguments generateContent : simpl never.
#[local] Arguments listModels : simpl never.
#[local] Arguments key_text : simpl never.
#[local] Arguments given : simpl never.
#[local] Arguments fold_left : simpl never.
#[local] Arguments ok : simpl never.
#[local] Arguments N.eqb : simpl never.
#[local] Arguments respond : simpl never.
#[local] Arguments apiError : simpl never.
#[local] Arguments getAvailableModels : simpl never.

Lemma answerOf_falsy_error (r : FetchResponse) (data error t : Value) :
  json r = inr data ->
  get data "error" = inr error ->
  truthy error = false ->
  candidateText data = inr t ->
  answerOf r = inr (or_else t placeholder).
Proof.
  intros Hj He Hf Ht. unfold answerOf, aiResponse. now rewrite Hj, He, Hf, Ht.
Qed.

Lemma answerOf_no_message (r : FetchResponse) (data error : Value) :
  json r = inr data ->
  get data "error" = inr error ->
  truthy error = true ->
  own error "message" = VUndefined ->
  answerOf r = inl (mkError "").
Proof.
  intros Hj He Ht Hm. unfold answerOf. rewrite Hj, He, Ht.
  assert (Hget : get error "message" = inr VUndefined).
  { destruct error; try discriminate Ht; cbn in *; now rewrite ?Hm. }
  now rewrite Hget.
Qed.

(** Every turn posts [loading{true}], one outcome, [loading{false}]. *)
Lemma posted_shape (w : World) (this : ChatViewProvider) (view : WebviewView)
    (stored : option string) (userMessage : string) :
  exists o,
    isOutcome o = true /\
    posted (trace (snd (chatTurn w this view stored userMessage))) =
    [Loading true; o; Loading false].
Proof. explore; eexists; (split; [|reflexivity]); reflexivity. Qed.

(** *** The promise of the handler *)

(** X9.  The promise of the message handler is never rejected by a chat
    turn: whatever the prompt, the settings, the workspace and the
    network do, the turn does not complete with an exception. *)
Theorem turn_never_rejects (w : World) (this : ChatViewProvider)
    (view : WebviewView) (stored : option string) (userMessage : string) (e : Error) :
  fst (chatTurn w this view stored userMessage) <> Throw e.
Proof. explore; discriminate. Qed.

(** *** The key *)

(** X10.  With a stored key that is not empty the turn never opens the
    prompt and never updates the setting, which is at the end what it
    was. *)
Theorem stored_key_used_silently (w : World) (this : ChatViewProvider)
    (view : WebviewView) (stored : option string) (userMessage : string) :
  given stored = true ->
  let result := chatTurn w this view stored userMessage in
  filter isPrompt (trace (snd result)) = [] /\
  filter isUpdate (trace (snd result)) = [] /\
  geminiApiKey (snd result) = stored.
Proof.
  intros Hs result. subst result.
  explore; try congruence; repeat split; reflexivity.
Qed.

Lemma stored_key_used_silently_witness :
  let result := chatTurn (answering (bodyWithText (VStr "hi"))) provider 1
                  (Some "key") "hello" in
  filter isPrompt (trace (snd result)) = [] /\
  filter isUpdate (trace (snd result)) = [] /\
  geminiApiKey (snd result) = Some "key".
Proof.
  apply (@stored_key_used_silently (answering (bodyWithText (VStr "hi"))) provider 1
           (Some "key") "hello").
  reflexivity.
Defined.



(** X12.  When storing the entered key fails, the turn stops there: the
    setting keeps its old value, no request is made, and the events of the
    turn are exactly [loading{true}], the prompt, the attempt to update
    the setting, the error of the update shown as it is, without the name
    of a model, and [loading{false}]. *)
Theorem failed_update_keeps_setting (w : World) (this : ChatViewProvider)
    (view : WebviewView) (stored entered : option string) (userMessage : string)
    (e : Error) :
  given stored = false ->
  showInputBox w = inr entered ->
  given entered = true ->
  configUpdate w (key_text entered) = Some e ->
  let result := chatTurn w this view stored userMessage in
  geminiApiKey (snd result) = stored /\
  trace (snd result) =
    [PostMessage view (Loading true); ShowInputBox; ConfigUpdate (key_text entered);
     PostMessage view (ErrorMessage ("Error: " ++ message e));
     PostMessage view (Loading false)].
Proof.
  intros Hs Hp Hg Hu result. subst result.
  explore; try congruence.
  all: split; reflexivity.
Qed.

Lemma failed_update_keeps_setting_witness :
  let result := chatTurn readOnly provider 1 None "hello" in
  geminiApiKey (snd result) = None /\
  trace (snd result) =
    [PostMessage 1 (Loading true); ShowInputBox; ConfigUpdate "typed";
     PostMessage 1 (ErrorMessage "Error: read-only settings");
     PostMessage 1 (Loading false)].
Proof.
  apply (@failed_update_keeps_setting readOnly provider 1 None (Some "typed") "hello"
           (mkError "read-only settings"));
    reflexivity.
Defined.

(** X13.  A failure before the request block (the prompt is rejected, the
    update of the setting fails, or the search of the files is rejected)
    is reported with the message of the error after [Error: ] and nothing
    else: no model is named, and no request is made. *)
Theorem early_failure_reported_raw (w : World) (this : ChatViewProvider)
    (view : WebviewView) (stored : option string) (userMessage : string) (e : Error) :
  PrepareFails w stored e ->
  let t := trace (snd (chatTurn w this view stored userMessage)) in
  posted t = [Loading true; ErrorMessage ("Error: " ++ message e); Loading false] /\
  requests t = [].
Proof.
  intros H t. subst t.
  inversion H as [e' Hs Hp He | entered e' Hs Hp Hg Hu He | e' Hs Hf He
                 | entered e' Hs Hp Hg Hu Hf He]; subst e'.
  all: explore; try congruence; split; reflexivity.
Qed.

Lemma early_failure_reported_raw_witness :
  let t := trace (snd (chatTurn noWorkspace provider 1 (Some "key") "hello")) in
  posted t = [Loading true; ErrorMessage "Error: no workspace"; Loading false] /\
  requests t = [].
Proof.
  apply (@early_failure_reported_raw noWorkspace provider 1 (Some "key") "hello"
           (mkError "no workspace")).
  apply SearchRejectsStored; reflexivity.
Defined.

(** X14.  After the command [devgear.setApiKey] has stored a key, a chat
    turn that starts from the setting it left, in any world, does not
    open the prompt, and every request it makes carries that key. *)
Theorem key_set_by_command_is_used (w w' : World) (s : Machine) (k : string)
    (this : ChatViewProvider) (view : WebviewView) (userMessage : string) :
  showInputBox w = inr (Some k) ->
  k <> "" ->
  configUpdate w k = None ->
  let stored := geminiApiKey (snd (fst (setApiKey w s))) in
  let t := trace (snd (chatTurn w' this view stored userMessage)) in
  filter isPrompt t = [] /\ Forall (carries (Some k)) (requests t).
Proof.
  intros Hp Hk Hu stored t. subst t.
  assert (Hg : given (Some k) = true).
  { unfold given. now apply String.eqb_neq in Hk as ->. }
  assert (Hstored : stored = Some k).
  { subst stored.
    unfold setApiKey, show_input_box, config_update, emit, eval, bind, ret, throw.
    cbn. rewrite Hp. cbn. rewrite Hg. unfold key_text. rewrite Hu. reflexivity. }
  rewrite Hstored. clear Hstored stored.
  explore; try congruence; split; try reflexivity.
  all: repeat (apply Forall_cons;
               [first [left; reflexivity | right; do 2 eexists; reflexivity] |]).
  all: apply Forall_nil.
Qed.

Lemma key_set_by_command_is_used_witness :
  let stored := geminiApiKey (snd (fst (setApiKey entering (start None)))) in
  let t := trace (snd (chatTurn retried provider 1 stored "hello")) in
  filter isPrompt t = [] /\ Forall (carries (Some "typed")) (requests t).
Proof.
  apply (@key_set_by_command_is_used entering retried (start None) "typed"
           provider 1 "hello");
    [reflexivity | discriminate | reflexivity].
Defined.

(** *** The requests *)

(** X15.  The requests of a turn, in full: none; or, with the files of
    the workspace found and a key at hand, the request to the default
    model alone, or followed by the listing, or followed by the listing
    and one more request to a model.  Every request carries the same key
    (the stored one, or the one entered), and both requests to a model
    carry the same prompt, built from the context of the files and the
    question. *)
Theorem requests_of_a_turn (w : World) (this : ChatViewProvider)
    (view : WebviewView) (stored : option string) (userMessage : string) :
  let t := trace (snd (chatTurn w this view stored userMessage)) in
  requests t = [] \/
  exists files,
    findFiles w = inr files /\
    given (keyUsed w stored) = true /\
    let key := keyUsed w stored in
    let prompt := fullPrompt (fold_left appendFile files "") userMessage in
    requests t = [generateContent defaultModel key prompt] \/
    requests t = [generateContent defaultModel key prompt; listModels key] \/
    exists id,
      requests t = [generateContent defaultModel key prompt; listModels key;
                    generateContent id key prompt].
Proof.
  intro t; subst t. unfold keyUsed.
  explore.
  all: try (left; reflexivity).
  all: right; eexists; split; [reflexivity|].
  all: repeat match goal with H : given _ = _ |- _ => rewrite H end.
  all: split; [reflexivity|].
  all: cbv zeta.
  all: first [ left; reflexivity | right; left; reflexivity
             | right; right; eexists; reflexivity ].
Qed.

(** X16.  A third request of a turn is the retry: it goes to the model
    that [chooseFallback] picks from what the listing (the second
    request) gave, by the string form of that choice, with the key and
    the prompt of the first request. *)
Theorem retry_targets_the_choice (w : World) (this : ChatViewProvider)
    (view : WebviewView) (stored : option string) (userMessage : string)
    (retry : Request) :
  let t := trace (snd (chatTurn w this view stored userMessage)) in
  nth_error (requests t) 2 = Some retry ->
  exists chosen id prompt,
    chooseFallback (listed (fetch w 1 (listModels (keyUsed w stored)))) = inr chosen /\
    ToString chosen = inr id /\
    retry = generateContent id (keyUsed w stored) prompt /\
    hd_error (requests t) = Some (generateContent defaultModel (keyUsed w stored) prompt).
Proof.
  intros t H; subst t. unfold keyUsed.
  explore; try discriminate H.
  all: injection H as <-.
  all: repeat match goal with H : given _ = _ |- _ => rewrite H end.
  all: do 3 eexists; repeat split; eassumption || reflexivity.
Qed.

Lemma retry_targets_the_choice_witness :
  exists chosen id prompt,
    chooseFallback (listed (fetch retried 1 (listModels (keyUsed retried (Some "key"))))) =
      inr chosen /\
    ToString chosen = inr id /\
    generateContent "models/gemini-1.5-pro" (Some "key") (fullPrompt "" "hello") =
      generateContent id (keyUsed retried (Some "key")) prompt /\
    hd_error (requests (trace (snd (chatTurn retried provider 1 (Some "key") "hello")))) =
      Some (generateContent defaultModel (keyUsed retried (Some "key")) prompt).
Proof.
  apply (@retry_targets_the_choice retried provider 1 (Some "key") "hello"
           (generateContent "models/gemini-1.5-pro" (Some "key") (fullPrompt "" "hello"))).
  reflexivity.
Defined.

(** *** The failures of the first request *)

(** X17.  When the first request is rejected (the network fails), the
    turn makes no other request and shows the message of the rejection
    after the name of the default model. *)
Theorem network_failure_enveloped (w : World) (this : ChatViewProvider)
    (view : WebviewView) (stored : option string) (userMessage : string)
    (req : Request) (e : Error) :
  let tr := trace (snd (chatTurn w this view stored userMessage)) in
  hd_error (requests tr) = Some req ->
  fetch w 0 req = inl e ->
  posted tr =
    [Loading true; ErrorMessage ("Error: " ++ envelope defaultModel (message e));
     Loading false] /\
  requests tr = [req].
Proof.
  intros tr Hreq Hfetch. subst tr.
  explore; try discriminate Hreq; injection Hreq as <-.
  all: match goal with
       | H : fetch _ 0 _ = _ |- _ =>
           tryif constr_eq H Hfetch then fail else rewrite H in Hfetch
       end.
  all: try discriminate Hfetch.
  all: injection Hfetch as <-; split; reflexivity.
Qed.

Lemma network_failure_enveloped_witness :
  let tr := trace (snd (chatTurn offline provider 1 (Some "key") "hello")) in
  posted tr =
    [Loading true;
     ErrorMessage "Error: Failed with model gemini-1.5-flash: ENOTFOUND";
     Loading false] /\
  requests tr = [firstRequest].
Proof.
  apply (@network_failure_enveloped offline provider 1 (Some "key") "hello"
           firstRequest (mkError "ENOTFOUND"));
    reflexivity.
Defined.

(** X18.  When the body of the first response cannot be read (a 2xx
    response whose body does not parse as JSON, or a response with
    another status than 2xx and 404 whose text cannot be read), the turn
    makes no other request and shows the message of that failure after
    the name of the default model. *)
Theorem unreadable_body_enveloped (w : World) (this : ChatViewProvider)
    (view : WebviewView) (stored : option string) (userMessage : string)
    (req : Request) (r : FetchResponse) (e : Error) :
  let tr := trace (snd (chatTurn w this view stored userMessage)) in
  hd_error (requests tr) = Some req ->
  fetch w 0 req = inr r ->
  (ok r = true /\ json r = inl e) \/
  (ok r = false /\ status r <> 404%N /\ text r = inl e) ->
  posted tr =
    [Loading true; ErrorMessage ("Error: " ++ envelope defaultModel (message e));
     Loading false] /\
  requests tr = [req].
Proof.
  intros tr Hreq Hfetch Hcase. subst tr.
  assert (Hsum : (ok r = true /\ answerOf r = inl e) \/
                 (ok r = false /\ status r <> 404%N /\ apiErrorOf r = e)).
  { destruct Hcase as [[Hok Hj] | [Hok [Hs Ht]]]; [left | right]; repeat split; auto.
    - unfold answerOf. now rewrite Hj.
    - unfold apiErrorOf. now rewrite Ht. }
  clear Hcase.
  explore; first_response Hreq Hfetch; status_facts.
  all: destruct Hsum as [[Hok Ha] | [Hok [Hs Ha]]]; try congruence.
  all: try (rewrite Ha in *;
            match goal with H : inl _ = inl _ |- _ => injection H as <- end).
  all: try (subst e).
  all: split; reflexivity.
Qed.

Lemma unreadable_body_enveloped_witness :
  let tr := trace (snd (chatTurn (world (fun _ _ => inr garbled)) provider 1
                          (Some "key") "hello")) in
  posted tr =
    [Loading true;
     ErrorMessage "Error: Failed with model gemini-1.5-flash: Unexpected token <";
     Loading false] /\
  requests tr = [firstRequest].
Proof.
  apply (@unreadable_body_enveloped (world (fun _ _ => inr garbled)) provider 1
           (Some "key") "hello" firstRequest garbled (mkError "Unexpected token <"));
    [reflexivity | reflexivity | left; split; reflexivity].
Defined.

(** *** The error field of a body *)

(** X19.  An [error] field that is falsy ([null], [false], [0], the empty
    string) is no error: a 2xx body with such a field is answered like a
    body without the field, with the text of its first candidate, or the
    placeholder when that text is falsy. *)
Theorem falsy_error_is_no_error (w : World) (this : ChatViewProvider)
    (view : WebviewView) (stored : option string) (userMessage : string)
    (n : nat) (req : Request) (r : FetchResponse) (data error t : Value) :
  let tr := trace (snd (chatTurn w this view stored userMessage)) in
  nth_error (requests tr) n = Some req ->
  isGenerate req = true ->
  fetch w n req = inr r ->
  ok r = true ->
  json r = inr data ->
  get data "error" = inr error ->
  truthy error = false ->
  candidateText data = inr t ->
  posted tr = [Loading true; Response (or_else t placeholder); Loading false].
Proof.
  intros tr Hreq Hgen Hfetch Hok Hjson Herr Hfalsy Htext. subst tr.
  pose proof (answerOf_falsy_error _ Hjson Herr Hfalsy Htext) as Hans.
  explore; nth_request Hreq Hfetch n; try discriminate Hgen; congruence.
Qed.

Lemma falsy_error_is_no_error_witness :
  posted (trace (snd (chatTurn (answering bodyWithNullError) provider 1
                        (Some "key") "hello"))) =
  [Loading true; Response (VStr "fine"); Loading false].
Proof.
  apply (@falsy_error_is_no_error (answering bodyWithNullError) provider 1
           (Some "key") "hello" 0 firstRequest (answers bodyWithNullError)
           bodyWithNullError VNull (VStr "fine"));
    reflexivity.
Defined.

(** X20.  A truthy [error] field without a [message] gives an error with
    the empty message: the turn shows the name of the default model
    followed by nothing, and makes no other request. *)
Theorem error_without_message (w : World) (this : ChatViewProvider)
    (view : WebviewView) (stored : option string) (userMessage : string)
    (req : Request) (r : FetchResponse) (data error : Value) :
  let tr := trace (snd (chatTurn w this view stored userMessage)) in
  hd_error (requests tr) = Some req ->
  fetch w 0 req = inr r ->
  ok r = true ->
  json r = inr data ->
  get data "error" = inr error ->
  truthy error = true ->
  own error "message" = VUndefined ->
  posted tr =
    [Loading true; ErrorMessage ("Error: " ++ envelope defaultModel ""); Loading false] /\
  requests tr = [req].
Proof.
  intros tr Hreq Hfetch Hok Hjson Herr Ht Hm. subst tr.
  pose proof (answerOf_no_message _ Hjson Herr Ht Hm) as Hans.
  explore; first_response Hreq Hfetch; try congruence.
  all: rewrite Hans in *.
  all: match goal with H : inl _ = inl _ |- _ => injection H as <- end.
  all: split; reflexivity.
Qed.

Lemma error_without_message_witness :
  let tr := trace (snd (chatTurn (answering bodyWithBareError) provider 1
                          (Some "key") "hello")) in
  posted tr =
    [Loading true; ErrorMessage "Error: Failed with model gemini-1.5-flash: ";
     Loading false] /\
  requests tr = [firstRequest].
Proof.
  apply (@error_without_message (answering bodyWithBareError) provider 1
           (Some "key") "hello" firstRequest (answers bodyWithBareError)
           bodyWithBareError (VObj [("code", VNum "400")]));
    reflexivity.
Defined.

End Session.

(** ** The answer as HTML *)

Module MarkdownFacts.
Import Markdown AppendFacts.

Lemma free_app (ch : ascii) (a b : string) :
  free ch (a ++ b) = free ch a && free ch b.
Proof.
  induction a as [|x a IH]; cbn; [reflexivity|]. rewrite IH. now rewrite andb_assoc.
Qed.

Lemma free_cons (ch c : ascii) (s : string) :
  free ch (String c s) = true -> c <> ch /\ free ch s = true.
Proof.
  cbn. intros H. apply andb_true_iff in H. destruct H as [Hc Hs]. split; [|exact Hs].
  intros ->. now rewrite Ascii.eqb_refl in Hc.
Qed.

Lemma eqb_neq (c ch : ascii) : c <> ch -> Ascii.eqb c ch = false.
Proof. intros H. now apply Ascii.eqb_neq. Qed.

Lemma prefix_first (p : string) (a c : ascii) (s : string) :
  a <> c -> String.prefix (String a p) (String c s) = false.
Proof. intros H. cbn. destruct (Ascii.ascii_dec a c); [contradiction|reflexivity]. Qed.

Lemma prefix_same (a : ascii) (p s : string) :
  String.prefix (String a p) (String a s) = String.prefix p s.
Proof. cbn. destruct (Ascii.ascii_dec a a); [reflexivity|contradiction]. Qed.

Lemma prefix_fence_first (c : ascii) (s : string) :
  c <> backtick -> String.prefix fence (String c s) = false.
Proof. intros H. apply prefix_first. auto. Qed.

Lemma prefix_stars_first (c : ascii) (s : string) :
  c <> star -> String.prefix stars (String c s) = false.
Proof. intros H. apply prefix_first. auto. Qed.

Lemma prefix_append (p s : string) : String.prefix p (p ++ s) = true.
Proof.
  induction p as [|a p IH]; cbn; [now destruct s|].
  destruct (Ascii.ascii_dec a a); [exact IH|contradiction].
Qed.

Lemma drop_length (x s : string) : drop (String.length x) (x ++ s) = s.
Proof. induction x as [|c x IH]; cbn; [now destruct s|exact IH]. Qed.

Lemma run_of_free (ch : ascii) (c rest : string) :
  free ch c = true -> run_of ch (c ++ String ch rest) = c.
Proof.
  induction c as [|x c IH]; cbn [append run_of]; intros H.
  - now rewrite Ascii.eqb_refl.
  - apply free_cons in H. destruct H as [Hx Hc].
    rewrite (eqb_neq Hx). now rewrite (IH Hc).
Qed.

Lemma run_of_free_end (ch : ascii) (c : string) :
  free ch c = true -> run_of ch c = c.
Proof.
  induction c as [|x c IH]; cbn [run_of]; intros H; [reflexivity|].
  apply free_cons in H. destruct H as [Hx Hc].
  rewrite (eqb_neq Hx). now rewrite (IH Hc).
Qed.

Lemma before_first_free (c post : string) :
  free backtick c = true -> before_first fence (c ++ fence ++ post) = Some c.
Proof.
  induction c as [|x c IH]; intros H.
  - cbn [append]. destruct (fence ++ post) eqn:E; [discriminate E|].
    cbn [before_first]. rewrite <- E. now rewrite prefix_append.
  - apply free_cons in H. destruct H as [Hx Hc].
    cbn [append before_first].
    rewrite (prefix_fence_first _ Hx).
    now rewrite (IH Hc).
Qed.

(** Passing over a match *)
Lemma fences_skip (x rest : string) : fences (String.length x) (x ++ rest) = fences 0 rest.
Proof. induction x as [|c x IH]; cbn [String.length append fences]; [reflexivity|exact IH]. Qed.

Lemma codes_skip (x rest : string) : codes (String.length x) (x ++ rest) = codes 0 rest.
Proof. induction x as [|c x IH]; cbn [String.length append codes]; [reflexivity|exact IH]. Qed.

Lemma bolds_skip (x rest : string) : bolds (String.length x) (x ++ rest) = bolds 0 rest.
Proof. induction x as [|c x IH]; cbn [String.length append bolds]; [reflexivity|exact IH]. Qed.

(** A pass leaves text without its marker alone. *)
Lemma fences_literal (c : ascii) (rest : string) :
  String.prefix fence (String c rest) = false ->
  fences 0 (String c rest) = String c (fences 0 rest).
Proof. intros H. cbn [fences]. now rewrite H. Qed.

Lemma fences_free (pre rest : string) :
  free backtick pre = true -> fences 0 (pre ++ rest) = pre ++ fences 0 rest.
Proof.
  induction pre as [|x pre IH]; intros H; [reflexivity|].
  apply free_cons in H. destruct H as [Hx Hp].
  cbn [append]. rewrite fences_literal.
  - now rewrite (IH Hp).
  - now apply prefix_fence_first.
Qed.

Lemma codes_literal (c : ascii) (rest : string) :
  c <> backtick -> codes 0 (String c rest) = String c (codes 0 rest).
Proof. intros H. cbn [codes]. now rewrite (eqb_neq H). Qed.

Lemma codes_free (pre rest : string) :
  free backtick pre = true -> codes 0 (pre ++ rest) = pre ++ codes 0 rest.
Proof.
  induction pre as [|x pre IH]; intros H; [reflexivity|].
  apply free_cons in H. destruct H as [Hx Hp].
  cbn [append]. rewrite (codes_literal _ Hx). now rewrite (IH Hp).
Qed.

Lemma bolds_literal (c : ascii) (rest : string) :
  c <> star -> bolds 0 (String c rest) = String c (bolds 0 rest).
Proof.
  intros H. cbn [bolds]. now rewrite (prefix_stars_first _ H).
Qed.

Lemma bolds_free (pre rest : string) :
  free star pre = true -> bolds 0 (pre ++ rest) = pre ++ bolds 0 rest.
Proof.
  induction pre as [|x pre IH]; intros H; [reflexivity|].
  apply free_cons in H. destruct H as [Hx Hp].
  cbn [append]. rewrite (bolds_literal _ Hx). now rewrite (IH Hp).
Qed.

Lemma breaks_app (a b : string) : breaks (a ++ b) = breaks a ++ breaks b.
Proof.
  induction a as [|x a IH]; cbn [append breaks]; [reflexivity|].
  rewrite IH. destruct (Ascii.eqb x newline); reflexivity.
Qed.

Lemma breaks_free (s : string) : free newline s = true -> breaks s = s.
Proof.
  induction s as [|x s IH]; intros H; [reflexivity|].
  apply free_cons in H. destruct H as [Hx Hs].
  cbn [breaks]. rewrite (eqb_neq Hx). now rewrite (IH Hs).
Qed.

Lemma breaks_no_newline (s : string) : free newline (breaks s) = true.
Proof.
  induction s as [|x s IH]; [reflexivity|].
  cbn [breaks]. destruct (Ascii.eqb x newline) eqn:E.
  - cbn. exact IH.
  - cbn [free]. now rewrite E, IH.
Qed.

Lemma plain_free (s : string) :
  plain s = true ->
  free backtick s = true /\ free star s = true /\ free newline s = true.
Proof.
  unfold plain. intros H. apply andb_true_iff in H. destruct H as [H Hn].
  apply andb_true_iff in H. tauto.
Qed.

Lemma fences_plain (s : string) : free backtick s = true -> fences 0 s = s.
Proof.
  intros H. rewrite <- (append_nil_r s) at 1. rewrite (@fences_free s "" H).
  cbn [fences]. apply append_nil_r.
Qed.

Lemma codes_plain (s : string) : free backtick s = true -> codes 0 s = s.
Proof.
  intros H. rewrite <- (append_nil_r s) at 1. rewrite (@codes_free s "" H).
  cbn [codes]. apply append_nil_r.
Qed.

Lemma bolds_plain (s : string) : free star s = true -> bolds 0 s = s.
Proof.
  intros H. rewrite <- (append_nil_r s) at 1. rewrite (@bolds_free s "" H).
  cbn [bolds]. apply append_nil_r.
Qed.

Lemma fences_step (c : ascii) (rest : string) :
  fences 0 (String c rest) =
  if String.prefix fence (String c rest) then
    match before_first fence (drop 3 (String c rest)) with
    | Some content =>
        "<pre>" ++ content ++ "</pre>" ++ fences (5 + String.length content) rest
    | None => String c (fences 0 rest)
    end
  else String c (fences 0 rest).
Proof. reflexivity. Qed.

Lemma codes_step (c : ascii) (rest : string) :
  codes 0 (String c rest) =
  if Ascii.eqb c backtick && negb (run_of backtick rest =? "")
     && String.prefix tick (drop (String.length (run_of backtick rest)) rest)
  then "<code>" ++ run_of backtick rest ++ "</code>"
       ++ codes (String.length (run_of backtick rest) + 1) rest
  else String c (codes 0 rest).
Proof. reflexivity. Qed.

Lemma bolds_step (c : ascii) (rest : string) :
  bolds 0 (String c rest) =
  if String.prefix stars (String c rest)
     && negb (run_of star (drop 2 (String c rest)) =? "")
     && String.prefix stars
          (drop (2 + String.length (run_of star (drop 2 (String c rest))))
             (String c rest))
  then "<strong>" ++ run_of star (drop 2 (String c rest)) ++ "</strong>"
       ++ bolds (3 + String.length (run_of star (drop 2 (String c rest)))) rest
  else String c (bolds 0 rest).
Proof. reflexivity. Qed.

Lemma drop_succ (n : nat) (c : ascii) (s : string) :
  drop (S n) (String c s) = drop n s.
Proof. reflexivity. Qed.

Lemma fences_succ (n : nat) (c : ascii) (s : string) :
  fences (S n) (String c s) = fences n s.
Proof. reflexivity. Qed.

Lemma bolds_succ (n : nat) (c : ascii) (s : string) :
  bolds (S n) (String c s) = bolds n s.
Proof. reflexivity. Qed.

Lemma prefix_tick_free (s : string) :
  free backtick s = true -> String.prefix tick s = false.
Proof.
  destruct s as [|x s]; [reflexivity|]. intros H. apply free_cons in H.
  apply prefix_first. intuition.
Qed.

Lemma prefix_tick_app (c r : string) :
  free backtick c = true -> c <> "" -> String.prefix tick (c ++ r) = false.
Proof.
  destruct c as [|x c]; [congruence|]. intros H _. apply free_cons in H.
  cbn [append]. apply prefix_first. intuition.
Qed.

Lemma prefix_star_free (s : string) :
  free star s = true -> String.prefix stars (String star s) = false.
Proof.
  destruct s as [|x s]; [reflexivity|]. intros H. apply free_cons in H.
  destruct H as [Hx _]. unfold stars. rewrite prefix_same.
  apply prefix_first. auto.
Qed.

Lemma fences_lone_tick (r : string) :
  String.prefix tick r = false ->
  fences 0 (String backtick r) = String backtick (fences 0 r).
Proof.
  intros H. apply fences_literal. unfold fence.
  destruct r as [|x r]; [reflexivity|].
  rewrite prefix_same. unfold tick in H.
  destruct (Ascii.ascii_dec backtick x) as [<-|Hx].
  - rewrite prefix_same in H. destruct r; discriminate H.
  - now apply prefix_first.
Qed.

Lemma nonempty_eqb (c : string) : c <> "" -> (c =? "") = false.
Proof. intros H. now apply String.eqb_neq. Qed.

Ltac frees :=
  rewrite ?free_app; cbn [free append];
  repeat match goal with H : free _ _ = true |- _ => rewrite H end;
  reflexivity.


(** X21.  Text without a backtick, a star or a line feed is inserted as
    it is: nothing of it is escaped, so the markup of an answer, tags and
    entities included, reaches [innerHTML] unchanged. *)
Theorem plain_text_unchanged (content : string) :
  plain content = true -> formatAIResponse content = content.
Proof.
  intros H. destruct (plain_free _ H) as (Hb & Hs & Hn). unfold formatAIResponse.
  rewrite fences_plain, codes_plain, bolds_plain by assumption.
  now apply breaks_free.
Qed.

Lemma plain_text_unchanged_witness :
  formatAIResponse "<img src=x onerror=alert(1)> & <b>bold</b>" =
  "<img src=x onerror=alert(1)> & <b>bold</b>".
Proof.
  apply (@plain_text_unchanged "<img src=x onerror=alert(1)> & <b>bold</b>").
  reflexivity.
Defined.

Lemma free_concat (ch : ascii) (sep : string) (lines : list string) :
  free ch sep = true ->
  forallb (free ch) lines = true ->
  free ch (String.concat sep lines) = true.
Proof.
  intros Hsep. induction lines as [|x lines IH]; [reflexivity|].
  cbn [forallb]. intros H. apply andb_true_iff in H. destruct H as [Hx Hl].
  cbn [String.concat]. destruct lines as [|y lines]; [exact Hx|].
  rewrite !free_app, Hx, Hsep. exact (IH Hl).
Qed.

Lemma breaks_concat (lines : list string) :
  forallb (free newline) lines = true ->
  breaks (String.concat (String newline "") lines) = String.concat "<br>" lines.
Proof.
  induction lines as [|x lines IH]; [reflexivity|].
  cbn [forallb]. intros H. apply andb_true_iff in H. destruct H as [Hx Hl].
  cbn [String.concat]. destruct lines as [|y lines]; [now apply breaks_free|].
  rewrite !breaks_app, (breaks_free x Hx), (IH Hl).
  cbn [breaks]. now rewrite Ascii.eqb_refl.
Qed.

Lemma forallb_plain (lines : list string) :
  forallb plain lines = true ->
  forallb (free backtick) lines = true /\ forallb (free star) lines = true /\
  forallb (free newline) lines = true.
Proof.
  induction lines as [|x lines IH]; [now repeat split|].
  cbn [forallb]. intros H. apply andb_true_iff in H. destruct H as [Hx Hl].
  destruct (plain_free _ Hx) as (H1 & H2 & H3).
  destruct (IH Hl) as (I1 & I2 & I3).
  now rewrite H1, H2, H3, I1, I2, I3.
Qed.

(** X22.  Every line feed becomes a [<br>]: lines of plain text joined by
    line feeds come out as the same lines joined by [<br>], nothing
    dropped and nothing else changed; and whatever the answer, its HTML
    holds no line feed. *)
Theorem line_feeds_become_br (content : string) (lines : list string) :
  free newline (formatAIResponse content) = true /\
  (forallb plain lines = true ->
   formatAIResponse (String.concat (String newline "") lines) =
   String.concat "<br>" lines).
Proof.
  split; [apply breaks_no_newline|].
  intros H. destruct (forallb_plain _ H) as (Hb & Hs & Hn).
  unfold formatAIResponse.
  rewrite fences_plain by (now apply free_concat).
  rewrite codes_plain by (now apply free_concat).
  rewrite bolds_plain by (now apply free_concat).
  now apply breaks_concat.
Qed.

Lemma line_feeds_become_br_witness :
  formatAIResponse
    (String.concat (String newline "") ["first line"; ""; "third <line>"]) =
  "first line<br><br>third <line>".
Proof.
  apply (proj2 (@line_feeds_become_br "" ["first line"; ""; "third <line>"])).
  reflexivity.
Defined.

(** X23.  A run of plain text between two backticks, in plain text,
    becomes a [<code>] element with that text, and the backticks go. *)
Theorem inline_code_wrapped (pre c post : string) :
  plain pre = true -> plain c = true -> c <> "" -> plain post = true ->
  formatAIResponse (pre ++ tick ++ c ++ tick ++ post) =
  pre ++ "<code>" ++ c ++ "</code>" ++ post.
Proof.
  intros Hpre Hc Hne Hpost.
  destruct (plain_free _ Hpre) as (Hpre1 & Hpre2 & Hpre3).
  destruct (plain_free _ Hc) as (Hc1 & Hc2 & Hc3).
  destruct (plain_free _ Hpost) as (Hpost1 & Hpost2 & Hpost3).
  unfold formatAIResponse.
  (* the fences leave it alone *)
  assert (H1 : fences 0 (pre ++ tick ++ c ++ tick ++ post) =
               pre ++ tick ++ c ++ tick ++ post).
  { rewrite fences_free by assumption. f_equal.
    change (tick ++ c ++ tick ++ post) with (String backtick (c ++ tick ++ post)).
    rewrite fences_lone_tick by (now apply prefix_tick_app). f_equal.
    rewrite fences_free by assumption. f_equal.
    change (tick ++ post) with (String backtick post).
    rewrite fences_lone_tick by (now apply prefix_tick_free).
    now rewrite fences_plain. }
  rewrite H1. clear H1.
  assert (H2 : codes 0 (pre ++ tick ++ c ++ tick ++ post) =
               pre ++ "<code>" ++ c ++ "</code>" ++ post).
  { rewrite codes_free by assumption. f_equal.
    change (tick ++ c ++ tick ++ post) with (String backtick (c ++ String backtick post)).
    rewrite codes_step. rewrite run_of_free by assumption.
    rewrite Ascii.eqb_refl, (nonempty_eqb Hne), drop_length. cbn [negb andb].
    change (String backtick post) with (tick ++ post). rewrite prefix_append.
    assert (Hskip : codes (String.length c + 1) (c ++ tick ++ post) = post).
    { replace (String.length c + 1) with (String.length (c ++ tick))
        by (rewrite length_append; reflexivity).
      rewrite <- append_assoc, codes_skip. now apply codes_plain. }
    cbn [append] in Hskip |- *. now rewrite Hskip. }
  rewrite H2. clear H2.
  rewrite bolds_plain by frees.
  apply breaks_free. frees.
Qed.

Lemma inline_code_wrapped_witness :
  formatAIResponse ("run " ++ tick ++ "npm test" ++ tick ++ " first") =
  "run <code>npm test</code> first".
Proof.
  apply (@inline_code_wrapped "run " "npm test" " first");
    [reflexivity | reflexivity | discriminate | reflexivity].
Defined.

(** X24.  A run of plain text between two pairs of stars, in plain text,
    becomes a [<strong>] element with that text. *)
Theorem bold_wrapped (pre c post : string) :
  plain pre = true -> plain c = true -> c <> "" -> plain post = true ->
  formatAIResponse (pre ++ stars ++ c ++ stars ++ post) =
  pre ++ "<strong>" ++ c ++ "</strong>" ++ post.
Proof.
  intros Hpre Hc Hne Hpost.
  destruct (plain_free _ Hpre) as (Hpre1 & Hpre2 & Hpre3).
  destruct (plain_free _ Hc) as (Hc1 & Hc2 & Hc3).
  destruct (plain_free _ Hpost) as (Hpost1 & Hpost2 & Hpost3).
  unfold formatAIResponse.
  rewrite fences_plain by frees. rewrite codes_plain by frees.
  assert (H3 : bolds 0 (pre ++ stars ++ c ++ stars ++ post) =
               pre ++ "<strong>" ++ c ++ "</strong>" ++ post).
  { rewrite bolds_free by assumption. f_equal.
    change (stars ++ c ++ stars ++ post)
      with (String star (String star (c ++ String star (String star post)))).
    rewrite bolds_step. change (2 + String.length ?n) with (S (S (String.length n))).
    rewrite !drop_succ. change (drop 0 ?x) with x.
    rewrite run_of_free by assumption.
    change (String star (String star (c ++ String star (String star post))))
      with (stars ++ c ++ stars ++ post).
    rewrite prefix_append, (nonempty_eqb Hne), drop_length.
    change (String star (String star post)) with (stars ++ post).
    rewrite prefix_append. cbn [negb andb].
    assert (Hskip : bolds (3 + String.length c) (String star (c ++ stars ++ post)) = post).
    { change (3 + String.length c) with (S (2 + String.length c)). rewrite bolds_succ.
      replace (2 + String.length c) with (String.length (c ++ stars))
        by (rewrite length_append; cbn; lia).
      rewrite <- append_assoc, bolds_skip. now apply bolds_plain. }
    unfold stars in Hskip |- *. cbn [append] in Hskip |- *. now rewrite Hskip. }
  rewrite H3. apply breaks_free. frees.
Qed.

Lemma bold_wrapped_witness :
  formatAIResponse ("a " ++ stars ++ "big" ++ stars ++ " deal") =
  "a <strong>big</strong> deal".
Proof.
  apply (@bold_wrapped "a " "big" " deal");
    [reflexivity | reflexivity | discriminate | reflexivity].
Defined.

(** X25.  Text without backticks and stars between two fences, in plain
    text, becomes a [<pre>] element; its line feeds become [<br>] like
    those outside, and an empty block gives an empty element. *)
Theorem fenced_block_wrapped (pre c post : string) :
  plain pre = true -> free backtick c = true -> free star c = true ->
  plain post = true ->
  formatAIResponse (pre ++ fence ++ c ++ fence ++ post) =
  pre ++ "<pre>" ++ breaks c ++ "</pre>" ++ post.
Proof.
  intros Hpre Hc1 Hc2 Hpost.
  destruct (plain_free _ Hpre) as (Hpre1 & Hpre2 & Hpre3).
  destruct (plain_free _ Hpost) as (Hpost1 & Hpost2 & Hpost3).
  unfold formatAIResponse.
  assert (H1 : fences 0 (pre ++ fence ++ c ++ fence ++ post) =
               pre ++ "<pre>" ++ c ++ "</pre>" ++ post).
  { rewrite fences_free by assumption. f_equal.
    change (fence ++ c ++ fence ++ post)
      with (String backtick (String backtick (String backtick (c ++ fence ++ post)))).
    rewrite fences_step. rewrite !drop_succ. change (drop 0 ?x) with x.
    change (String backtick (String backtick (String backtick (c ++ fence ++ post))))
      with (fence ++ c ++ fence ++ post).
    rewrite prefix_append, before_first_free by assumption.
    assert (Hskip : fences (5 + String.length c)
                      (String backtick (String backtick (c ++ fence ++ post))) = post).
    { change (5 + String.length c) with (S (S (3 + String.length c))).
      rewrite !fences_succ.
      replace (3 + String.length c) with (String.length (c ++ fence))
        by (rewrite length_append; cbn; lia).
      rewrite <- append_assoc, fences_skip. now apply fences_plain. }
    unfold fence in Hskip |- *. cbn [append] in Hskip |- *. now rewrite Hskip. }
  rewrite H1. clear H1.
  rewrite codes_plain by frees. rewrite bolds_plain by frees.
  rewrite !breaks_app. rewrite (breaks_free pre Hpre3), (breaks_free post Hpost3).
  reflexivity.
Qed.

Lemma fenced_block_wrapped_witness :
  formatAIResponse
    ("see " ++ fence ++ String "a" (String newline "b") ++ fence ++ " end") =
  "see <pre>a<br>b</pre> end".
Proof.
  apply (@fenced_block_wrapped "see " (String "a" (String newline "b")) " end");
    reflexivity.
Defined.

(** X26.  A marker without its partner stays: a single backtick, or a
    single pair of stars, in otherwise plain text is left as it is. *)
Theorem unmatched_markers_kept (pre post : string) :
  plain pre = true -> plain post = true ->
  formatAIResponse (pre ++ tick ++ post) = pre ++ tick ++ post /\
  formatAIResponse (pre ++ stars ++ post) = pre ++ stars ++ post.
Proof.
  intros Hpre Hpost.
  destruct (plain_free _ Hpre) as (Hpre1 & Hpre2 & Hpre3).
  destruct (plain_free _ Hpost) as (Hpost1 & Hpost2 & Hpost3).
  unfold formatAIResponse. split.
  - assert (H1 : fences 0 (pre ++ tick ++ post) = pre ++ tick ++ post).
    { rewrite fences_free by assumption. f_equal.
      change (tick ++ post) with (String backtick post).
      rewrite fences_lone_tick by (now apply prefix_tick_free).
      now rewrite fences_plain. }
    rewrite H1. clear H1.
    assert (H2 : codes 0 (pre ++ tick ++ post) = pre ++ tick ++ post).
    { rewrite codes_free by assumption. f_equal.
      change (tick ++ post) with (String backtick post).
      rewrite codes_step. rewrite run_of_free_end by assumption.
      replace (drop (String.length post) post) with ""
        by (rewrite <- (append_nil_r post) at 2; now rewrite drop_length).
      rewrite andb_false_r. now rewrite codes_plain. }
    rewrite H2. clear H2.
    rewrite bolds_plain by frees. apply breaks_free. frees.
  - rewrite fences_plain by frees. rewrite codes_plain by frees.
    assert (H3 : bolds 0 (pre ++ stars ++ post) = pre ++ stars ++ post).
    { rewrite bolds_free by assumption. f_equal.
      change (stars ++ post) with (String star (String star post)).
      rewrite bolds_step. rewrite !drop_succ. change (drop 0 ?x) with x.
      rewrite run_of_free_end by assumption.
      change (2 + String.length post) with (S (S (String.length post))).
      rewrite !drop_succ.
      replace (drop (String.length post) post) with ""
        by (rewrite <- (append_nil_r post) at 2; now rewrite drop_length).
      rewrite andb_false_r. f_equal.
      rewrite bolds_step, (prefix_star_free post Hpost2). cbn [andb].
      now rewrite bolds_plain. }
    rewrite H3. apply breaks_free. frees.
Qed.

Lemma unmatched_markers_kept_witness :
  formatAIResponse ("5 " ++ tick ++ " 6") = "5 " ++ tick ++ " 6" /\
  formatAIResponse ("5 " ++ stars ++ " 6") = "5 " ++ stars ++ " 6".
Proof.
  apply (@unmatched_markers_kept "5 " " 6"); reflexivity.
Defined.

End MarkdownFacts.

(** ** The script of the webview *)

Module ScriptFacts.
Import JS Host Run Extension Observe Markdown Script.

Lemma trimEnd_idem (s : string) : trimEnd (trimEnd s) = trimEnd s.
Proof.
  induction s as [|c s IH]; [reflexivity|].
  cbn [trimEnd]. destruct (isSpace c && (trimEnd s =? "")) eqn:E; [reflexivity|].
  cbn [trimEnd]. rewrite IH, E. reflexivity.
Qed.

Lemma trimStart_head (s : string) :
  trimStart s = "" \/ exists c r, trimStart s = String c r /\ isSpace c = false.
Proof.
  induction s as [|c s IH]; [now left|].
  cbn [trimStart]. destruct (isSpace c) eqn:E; [exact IH|].
  right. now exists c, s.
Qed.

Lemma trim_idem (s : string) : trim (trim s) = trim s.
Proof.
  unfold trim. destruct (trimStart_head s) as [-> | (c & r & -> & Hc)]; [reflexivity|].
  assert (E : trimEnd (String c r) = String c (trimEnd r))
    by (cbn [trimEnd]; now rewrite Hc).
  rewrite E. cbn [trimStart]. rewrite Hc. cbn [trimEnd]. rewrite Hc. cbn [andb].
  now rewrite trimEnd_idem.
Qed.

Lemma trimStart_blank (s : string) :
  forallb isSpace (list_ascii_of_string s) = true -> trimStart s = "".
Proof.
  induction s as [|c s IH]; [reflexivity|].
  cbn [list_ascii_of_string forallb trimStart]. intros H.
  apply andb_true_iff in H. destruct H as [-> Hs]. now apply IH.
Qed.

Lemma send_outbox (s : Webview) :
  outbox (send s) = outbox s \/
  (isLoading s = false /\ trim (inputValue s) <> "" /\
   outbox (send s) = (outbox s ++ [Chat (trim (inputValue s))])%list).
Proof.
  unfold send. destruct (trim (inputValue s) =? "") eqn:E; cbn [orb]; [now left|].
  destruct (isLoading s) eqn:L; [now left|]. right. cbn.
  repeat split. now apply String.eqb_neq.
Qed.

Lemma step_outbox (s : Webview) (e : WebEvent) :
  outbox (step s e) = outbox s \/
  (isLoading s = false /\ trim (inputValue s) <> "" /\
   outbox (step s e) = (outbox s ++ [Chat (trim (inputValue s))])%list).
Proof.
  destruct e as [[value|] | welcome m]; cbn [step act].
  - now left.
  - apply send_outbox.
  - left. destruct m as [b|v| |]; cbn; try reflexivity.
    + unfold addMessage. cbn. destruct v; reflexivity.
    + now destruct welcome.
Qed.

Lemma step_keeps_loading (s : Webview) (e : WebEvent) :
  isLoadingMessage e = false -> isLoading (step s e) = isLoading s.
Proof.
  destruct e as [[value|] | welcome m]; cbn [step act]; intros H.
  - reflexivity.
  - unfold send. destruct ((trim (inputValue s) =? "") || isLoading s); reflexivity.
  - destruct m as [b|v| |]; cbn; try reflexivity; try discriminate H.
    + unfold addMessage. cbn. destruct v; reflexivity.
    + now destruct welcome.
Qed.

Lemma deliver_shape (welcome : bool) (o : Message) (s : Webview) :
  isOutcome o = true ->
  let s' := deliver welcome [Loading true; o; Loading false] s in
  isLoading s' = false /\ sendDisabled s' = false /\
  outbox s' = outbox s /\ inputValue s' = inputValue s /\
  exists shown,
    rendered s' = (rendered s ++ shown)%list /\ List.length shown <= 1.
Proof.
  intros Ho. destruct o as [b|v|m|]; try discriminate Ho; cbn.
  - unfold addMessage. cbn.
    destruct v; cbn; repeat split;
      first [ exists []; split; [now rewrite app_nil_r | cbn; lia]
            | eexists; split; [reflexivity | cbn; lia] ].
  - repeat split. eexists; split; [reflexivity | cbn; lia].
Qed.

(** X27.  Whatever the user does and whatever the extension sends, in any
    order, the script posts only [chat] messages, each with a text that
    is not empty and has no white space around it: it never posts
    [clear], so the [clear] case of the extension's handler is not
    reached from this webview. *)
Theorem webview_posts_only_chat (events : list WebEvent) (s : Webview) :
  Forall wellFormed (outbox s) ->
  Forall wellFormed (outbox (fold_left step events s)).
Proof.
  revert s. induction events as [|e events IH]; intros s H; [exact H|].
  cbn [fold_left]. apply IH.
  destruct (step_outbox s e) as [-> | (_ & Hne & ->)]; [exact H|].
  apply Forall_app. split; [exact H|]. constructor; [|constructor].
  exists (trim (inputValue s)). repeat split; auto. apply trim_idem.
Qed.

Lemma webview_posts_only_chat_witness :
  Forall wellFormed
    (outbox (fold_left step
               [User (Typed "  explain this  "); User SendAction;
                Received false ClearChat; User (Typed " "); User SendAction]
               loaded)).
Proof.
  apply (@webview_posts_only_chat
           [User (Typed "  explain this  "); User SendAction;
            Received false ClearChat; User (Typed " "); User SendAction]
           loaded).
  constructor.
Defined.

(** X28.  While the script is loading, and until a [loading] message
    arrives, nothing is posted to the extension: typing, the send button,
    the Enter key, and the other messages of the extension leave what has
    been posted as it is, and the script stays loading. *)
Theorem nothing_sent_while_loading (events : list WebEvent) (s : Webview) :
  isLoading s = true ->
  forallb (fun e => negb (isLoadingMessage e)) events = true ->
  outbox (fold_left step events s) = outbox s /\
  isLoading (fold_left step events s) = true.
Proof.
  revert s. induction events as [|e events IH]; intros s Hl Hev; [now split|].
  cbn [forallb] in Hev. apply andb_true_iff in Hev. destruct Hev as [He Hev].
  apply negb_true_iff in He.
  cbn [fold_left].
  assert (Hl' : isLoading (step s e) = true) by (now rewrite step_keeps_loading).
  destruct (IH _ Hl' Hev) as [Hout Hload]. split; [|exact Hload].
  rewrite Hout.
  destruct (step_outbox s e) as [-> | (Hfalse & _)]; [reflexivity|congruence].
Qed.

Lemma nothing_sent_while_loading_witness :
  let s := receive false (Loading true) loaded in
  let events := [User (Typed "again"); User SendAction;
                 Received false (Response (VStr "an answer")); User SendAction] in
  outbox (fold_left step events s) = outbox s /\
  isLoading (fold_left step events s) = true.
Proof.
  apply (@nothing_sent_while_loading
           [User (Typed "again"); User SendAction;
            Received false (Response (VStr "an answer")); User SendAction]
           (receive false (Loading true) loaded));
    reflexivity.
Defined.

(** X29.  An input of white space only is not sent: the send action
    leaves the script as it is, with nothing posted, nothing rendered and
    the input kept. *)
Theorem blank_input_not_sent (s : Webview) :
  forallb isSpace (list_ascii_of_string (inputValue s)) = true ->
  send s = s.
Proof.
  intros H. unfold send, trim. now rewrite (trimStart_blank _ H).
Qed.

Lemma blank_input_not_sent_witness :
  send (act (Typed (String (ascii_of_nat 9) (String (ascii_of_nat 160) " "))) loaded) =
  act (Typed (String (ascii_of_nat 9) (String (ascii_of_nat 160) " "))) loaded.
Proof.
  apply (@blank_input_not_sent
           (act (Typed (String (ascii_of_nat 9) (String (ascii_of_nat 160) " "))) loaded)).
  reflexivity.
Defined.

(** X30.  The messages of any chat turn, received in order by the script
    in any state, leave it ready for the next question: not loading, the
    send button enabled, the input and what has been posted untouched,
    and at most one element more in the list of messages. *)
Theorem turn_leaves_webview_ready (w : World) (this : ChatViewProvider)
    (view : WebviewView) (stored : option string) (userMessage : string)
    (welcome : bool) (s : Webview) :
  let s' := deliver welcome
              (posted (trace (snd (chatTurn w this view stored userMessage)))) s in
  isLoading s' = false /\ sendDisabled s' = false /\
  outbox s' = outbox s /\ inputValue s' = inputValue s /\
  exists shown,
    rendered s' = (rendered s ++ shown)%list /\ List.length shown <= 1.
Proof.
  intros s'. subst s'.
  destruct (Session.posted_shape w this view stored userMessage) as (o & Ho & ->).
  now apply deliver_shape.
Qed.

End ScriptFacts.
